(** * workshop-2016: the batch submit script and the two tutorial notebooks

    The repository holds one PBS submit script ([db/CuAu/Au/submit_script])
    and two IPython notebooks ([pymatgen_core/pymatgen_core.ipynb] and
    [manual_wflow/Si_bandstructure.ipynb]).  The script is embedded as its
    text, line by line, and analysed by a small shell word splitter; the
    notebooks are embedded as the syntax trees of their cells; the file
    system effects of the band-structure notebook are given by an
    interpreter over a directory tree. *)

From Stdlib Require Import Ascii String Sorted.
From stdpp Require Import base option strings list gmap.

#[local] Set Warnings "-register-all".
Local Open Scope string_scope.
Local Open Scope list_scope.
Local Open Scope stdpp_scope.
Local Open Scope nat_scope.

(** ** Generic helpers on strings *)

Module Str.

(** The double quote character, written by its code. *)
Definition dquote : ascii := "034"%char.
Definition dq : string := String dquote EmptyString.

Fixpoint mem (c : ascii) (s : string) : bool :=
  match s with
  | EmptyString => false
  | String d s' => Ascii.eqb c d || mem c s'
  end.

(** [split_on c s] cuts [s] at every occurrence of [c]. *)
Fixpoint split_on_aux (c : ascii) (s : string) (cur : string) : list string :=
  match s with
  | EmptyString => [cur]
  | String d s' =>
      if Ascii.eqb c d then cur :: split_on_aux c s' EmptyString
      else split_on_aux c s' (cur +:+ String d EmptyString)
  end.

Definition split_on (c : ascii) (s : string) : list string :=
  split_on_aux c s EmptyString.

Definition digit_of (c : ascii) : option nat :=
  let n := nat_of_ascii c in
  if (48 <=? n)%nat && (n <=? 57)%nat then Some (n - 48)%nat else None.

Fixpoint parse_nat_aux (s : string) (acc : nat) : option nat :=
  match s with
  | EmptyString => Some acc
  | String c s' =>
      match digit_of c with
      | Some d => parse_nat_aux s' (10 * acc + d)%nat
      | None => None
      end
  end.

(** A non-empty string of decimal digits, read as a number. *)
Definition parse_nat (s : string) : option nat :=
  match s with
  | EmptyString => None
  | _ => parse_nat_aux s 0
  end.

Definition starts_with (p s : string) : bool := String.prefix p s.

Definition drop (n : nat) (s : string) : string :=
  String.substring n (String.length s - n) s.

Definition is_blank_char (c : ascii) : bool :=
  Ascii.eqb c " "%char || Ascii.eqb c "009"%char.

(** Shell word splitting: blanks separate words, a double-quoted stretch
    belongs to the word it occurs in and keeps its blanks. *)
Fixpoint words_aux (s : string) (inq : bool) (cur : option string) : list string :=
  match s with
  | EmptyString => match cur with Some w => [w] | None => [] end
  | String c s' =>
      if Ascii.eqb c dquote then
        words_aux s' (negb inq) (Some (default EmptyString cur))
      else if is_blank_char c && negb inq then
        match cur with
        | Some w => w :: words_aux s' false None
        | None => words_aux s' false None
        end
      else
        words_aux s' inq (Some (default EmptyString cur +:+ String c EmptyString))
  end.

Definition words (s : string) : list string := words_aux s false None.

Definition in_list (x : string) (l : list string) : bool :=
  existsb (String.eqb x) l.

(** The word that follows the first occurrence of [flag]. *)
Fixpoint word_after (flag : string) (ws : list string) : option string :=
  match ws with
  | [] => None
  | w :: rest =>
      if String.eqb w flag then head rest else word_after flag rest
  end.

(** [value_of "k" ["a=1"; "k=2"]] is [Some "2"]: the text after [k=] in the
    first piece that starts with it. *)
Definition value_of (key : string) (pieces : list string) : option string :=
  let p := key +:+ "=" in
  match List.find (starts_with p) pieces with
  | Some w => Some (drop (String.length p) w)
  | None => None
  end.

End Str.

Module Util.

(** The indices (counted from [i]) of the elements that satisfy [P]. *)
Fixpoint positions_from {A} (P : A → bool) (l : list A) (i : nat) : list nat :=
  match l with
  | [] => []
  | x :: rest =>
      if P x then i :: positions_from P rest (S i)
      else positions_from P rest (S i)
  end.

Definition positions {A} (P : A → bool) (l : list A) : list nat :=
  positions_from P l 0.

End Util.

(** ** The submit script *)

Module Submit.

(** [db/CuAu/Au/submit_script], lines 1 to 15. *)
Definition submit_script : list string :=
  [ "#!/bin/bash";
    "#PBS -q glean";
    "#PBS -N job";
    "#PBS -l nodes=1:ppn=24:haswell";
    "#PBS -l walltime=24:00:00";
    "#PBS -o run_vasp.out";
    "#PBS -e job.err";
    "#PBS -V";
    "#PBS -M ongsp@ucsd.edu";
    "#PBS -m a";
    "#PBS -A ong-group";
    "#PBS -d /home/ongsp/Li2O/Au";
    EmptyString;
    "module load vasp scipy/2.7";
    "run_vasp -c " +:+ Str.dq
      +:+ "mpirun -machinefile $PBS_NODEFILE -np 24 /opt/vasp/5.4.1/bin/vasp"
      +:+ Str.dq +:+ " -z -s /oasis/tscc/scratch/ongsp relax relax" ].

(** What a line is to the shell and to the scheduler. *)
Inductive line_kind :=
| Shebang (interpreter : string)
| Directive (flag : string) (args : list string)
| Comment
| Blank
| Command (ws : list string).

Definition classify (l : string) : line_kind :=
  if Str.starts_with "#!" l then Shebang (Str.drop 2 l)
  else if Str.starts_with "#PBS " l then
    match Str.words (Str.drop 5 l) with
    | f :: args => Directive f args
    | [] => Comment
    end
  else if Str.starts_with "#" l then Comment
  else
    match Str.words l with
    | [] => Blank
    | ws => Command ws
    end.

Definition directives (sc : list string) : list (string * list string) :=
  omap (fun l => match classify l with
                 | Directive f a => Some (f, a)
                 | _ => None
                 end) sc.

Definition commands (sc : list string) : list (list string) :=
  omap (fun l => match classify l with
                 | Command ws => Some ws
                 | _ => None
                 end) sc.

(** The lines the shell executes (everything that is not a comment to it). *)
Definition command_lines (sc : list string) : list string :=
  List.filter (fun l => match classify l with Command _ => true | _ => false end) sc.

(** *** Scheduler directives

    The options of Torque/PBS [qsub] that the script uses, by what they
    declare. *)
Inductive param :=
| Queue | JobName | NodeCores | Walltime | OtherResource
| StdoutPath | StderrPath | ExportEnv | MailTo | MailPolicy
| Account | WorkDir | UnknownFlag.

Definition param_eqb (a b : param) : bool :=
  match a, b with
  | Queue, Queue | JobName, JobName | NodeCores, NodeCores
  | Walltime, Walltime | OtherResource, OtherResource
  | StdoutPath, StdoutPath | StderrPath, StderrPath
  | ExportEnv, ExportEnv | MailTo, MailTo | MailPolicy, MailPolicy
  | Account, Account | WorkDir, WorkDir | UnknownFlag, UnknownFlag => true
  | _, _ => false
  end.

Definition directive_param (d : string * list string) : param :=
  let '(f, args) := d in
  if String.eqb f "-q" then Queue
  else if String.eqb f "-N" then JobName
  else if String.eqb f "-l" then
    match args with
    | a :: _ =>
        if Str.starts_with "nodes=" a then NodeCores
        else if Str.starts_with "walltime=" a then Walltime
        else OtherResource
    | [] => OtherResource
    end
  else if String.eqb f "-o" then StdoutPath
  else if String.eqb f "-e" then StderrPath
  else if String.eqb f "-V" then ExportEnv
  else if String.eqb f "-M" then MailTo
  else if String.eqb f "-m" then MailPolicy
  else if String.eqb f "-A" then Account
  else if String.eqb f "-d" then WorkDir
  else UnknownFlag.

Definition declared (sc : list string) : list param :=
  map directive_param (directives sc).

(** The parameters the specification lists: queue name, node/core count,
    walltime, output and error redirection, notification policy, working
    directory. *)
Definition spec_listed : list param :=
  [Queue; NodeCores; Walltime; StdoutPath; StderrPath; MailPolicy; WorkDir].

(** A directive is fixed when nothing in it is expanded by the shell. *)
Definition fixed_directive (d : string * list string) : bool :=
  forallb (fun w => negb (Str.mem "$"%char w) && negb (Str.mem "`"%char w))
          (d.1 :: d.2).

(** The script declares exactly the listed parameters. *)
Definition declares_exactly (sc : list string) (ps : list param) : Prop :=
  ∀ p, In p (declared sc) ↔ In p ps.

(** *** The launch line *)

(** Options of the MPI launcher that take one argument. *)
Definition launcher_unary_opts : list string :=
  ["-machinefile"; "-hostfile"; "-np"; "-n"].

(** The program (with its arguments) that a launcher command line starts:
    what is left once the launcher's options and their arguments are
    skipped. *)
Fixpoint launched_program (ws : list string) (skip : bool) : list string :=
  match ws with
  | [] => []
  | w :: rest =>
      if skip then launched_program rest false
      else if Str.in_list w launcher_unary_opts then launched_program rest true
      else if Str.starts_with "-" w then launched_program rest false
      else w :: rest
  end.

(** The command string handed to [run_vasp] through [-c], as words. *)
Definition launch_line (cmd : list string) : option (list string) :=
  match cmd with
  | prog :: opts =>
      if String.eqb prog "run_vasp" then Str.words <$> Str.word_after "-c" opts
      else None
  | [] => None
  end.

(** The launcher and what it starts. *)
Definition launch_parts (l : list string) : option (string * list string) :=
  match l with
  | launcher :: rest => Some (launcher, launched_program rest false)
  | [] => None
  end.

Definition launch_lines (sc : list string) : list (list string) :=
  omap launch_line (commands sc).

(** *** Requested and used cores *)

Definition node_spec (sc : list string) : option (list string) :=
  match List.find (fun d => param_eqb (directive_param d) NodeCores) (directives sc) with
  | Some (_, a :: _) => Some (Str.split_on ":"%char a)
  | _ => None
  end.

Definition requested_nodes (sc : list string) : option nat :=
  spec ← node_spec sc; v ← Str.value_of "nodes" spec; Str.parse_nat v.

Definition requested_ppn (sc : list string) : option nat :=
  spec ← node_spec sc; v ← Str.value_of "ppn" spec; Str.parse_nat v.

Definition launched_np (sc : list string) : option nat :=
  l ← head (launch_lines sc); v ← Str.word_after "-np" l; Str.parse_nat v.

(** *** Control flow, state and process control in the script *)

(** Reserved words, compound-command openers and the builtins that
    redirect control. *)
Definition control_keywords : list string :=
  ["if"; "then"; "elif"; "else"; "fi"; "case"; "esac"; "for"; "select";
   "while"; "until"; "do"; "done"; "function"; "{"; "}"; "[["; "(("; "!";
   "exit"; "return"; "break"; "continue"].


(** Builtins and commands that coordinate processes. *)
Definition process_builtins : list string :=
  ["wait"; "kill"; "trap"; "bg"; "fg"; "jobs"; "disown"; "nohup";
   "coproc"; "pkill"; "killall"; "timeout"].

(** Characters that make a list, a pipeline, a background job, an
    assignment, a group, a subshell or a command substitution. *)
Definition operator_chars : list ascii :=
  [";"; "&"; "|"; "="; "("; ")"; "{"; "}"; "`"; "<"; ">"]%char.

(** The words of a command, those inside a quoted argument included. *)
Definition all_words (ws : list string) : list string :=
  flat_map Str.words ws.

Definition control_freeb (l : string) : bool :=
  match classify l with
  | Command ws =>
      forallb (fun w => negb (Str.in_list w control_keywords)) (all_words ws)
      && forallb (fun c => negb (Str.mem c l)) operator_chars
  | _ => true
  end.

(** A line is free of control flow when, if the shell executes it at all,
    it is one simple command: no reserved word, and no operator,
    assignment, group or substitution character. *)
Definition control_free (l : string) : Prop :=
  match classify l with
  | Command ws =>
      (∀ w, In w (all_words ws) → ¬ In w control_keywords)
      ∧ (∀ c, In c operator_chars → Str.mem c l = false)
  | _ => True
  end.




Definition no_process_controlb (l : string) : bool :=
  match classify l with
  | Command ws =>
      forallb (fun w => negb (Str.in_list w process_builtins)) (all_words ws)
      && negb (Str.mem "&"%char l)
  | _ => true
  end.

(** A line has no process control when it backgrounds nothing (no [&]) and
    runs none of the process-coordinating commands. *)
Definition no_process_control (l : string) : Prop :=
  match classify l with
  | Command ws =>
      (∀ w, In w (all_words ws) → ¬ In w process_builtins)
      ∧ Str.mem "&"%char l = false
  | _ => True
  end.

End Submit.

(** ** Notebooks as syntax trees *)

Module Py.

(** Expressions of the Python subset the notebooks are written in.  Numeric
    literals keep their source text. *)
Inductive expr :=
| EName (id : string)
| ENum (lit : string)
| EStr (s : string)
| EBool (b : bool)
| ENeg (e : expr)
| EAttr (e : expr) (attr : string)
| ESubscript (e : expr) (idx : expr)
| ECall (f : expr) (args : list expr) (kwargs : list (string * expr))
| EList (es : list expr)
| ETuple (es : list expr)
| EDict (kvs : list (expr * expr))
| ECompare (l : expr) (op : string) (r : expr)
| EListComp (elt : expr) (target : expr) (iter : expr)
| ELambda (params : list string) (body : expr)
| EIfExp (c : expr) (a : expr) (b : expr).

(** Statements: Python 2 statements, and the two kinds of IPython lines
    ([%magic] and [!shell command]). *)
Inductive stmt :=
| SImport (module : string)
| SFromImport (module : string) (names : list string)
| SAssign (target : expr) (value : expr)
| SExpr (e : expr)
| SPrint (args : list expr)
| SFor (target : expr) (iter : expr) (body : list stmt)
| SWhile (cond : expr) (body : list stmt)
| SIf (cond : expr) (body : list stmt) (orelse : list stmt)
| STry (body : list stmt) (handler : list stmt) (final : list stmt)
| SFunctionDef (name : string) (params : list string) (body : list stmt)
| SClassDef (name : string) (bases : list expr) (body : list stmt)
| SMagic (line : string)
| SShell (line : string).

(** Markdown cells carry no code; they are kept so that a cell's position
    in the list is its position in the notebook file (counted from 0). *)
Inductive cell :=
| Markdown
| Code (body : list stmt).

Definition notebook := list cell.

Definition cell_body (c : cell) : list stmt :=
  match c with
  | Markdown => []
  | Code b => b
  end.

(** The top-level statements of a notebook, in cell order. *)
Definition nb_stmts (nb : notebook) : list stmt := flat_map cell_body nb.

(** Shorthands for the commonest shapes. *)
Definition call (f : expr) (args : list expr) : expr := ECall f args [].
Definition meth (o : expr) (m : string) (args : list expr) : expr :=
  ECall (EAttr o m) args [].
Definition methk (o : expr) (m : string) (args : list expr)
    (kw : list (string * expr)) : expr :=
  ECall (EAttr o m) args kw.
Definition nums (l : list string) : expr := EList (map ENum l).
Definition strs (l : list string) : expr := EList (map EStr l).

(** *** Traversals *)

(** Every call in an expression, in evaluation order (callee, arguments,
    then the call itself). *)
Fixpoint calls_e (e : expr) : list expr :=
  match e with
  | EName _ | ENum _ | EStr _ | EBool _ => []
  | ENeg a => calls_e a
  | EAttr a _ => calls_e a
  | ESubscript a i => calls_e a ++ calls_e i
  | ECall f args kw =>
      calls_e f ++ flat_map calls_e args
        ++ flat_map (fun p => calls_e p.2) kw ++ [e]
  | EList es | ETuple es => flat_map calls_e es
  | EDict kvs => flat_map (fun p => calls_e p.1 ++ calls_e p.2) kvs
  | ECompare l _ r => calls_e l ++ calls_e r
  | EListComp elt t it => calls_e it ++ calls_e t ++ calls_e elt
  | ELambda _ b => calls_e b
  | EIfExp c a b => calls_e c ++ calls_e a ++ calls_e b
  end.

Fixpoint calls_s (s : stmt) : list expr :=
  match s with
  | SImport _ | SFromImport _ _ | SMagic _ | SShell _ => []
  | SAssign t v => calls_e v ++ calls_e t
  | SExpr e => calls_e e
  | SPrint args => flat_map calls_e args
  | SFor t it body => calls_e it ++ calls_e t ++ flat_map calls_s body
  | SWhile c body => calls_e c ++ flat_map calls_s body
  | SIf c body orelse =>
      calls_e c ++ flat_map calls_s body ++ flat_map calls_s orelse
  | STry body handler final =>
      flat_map calls_s body ++ flat_map calls_s handler
        ++ flat_map calls_s final
  | SFunctionDef _ _ body => flat_map calls_s body
  | SClassDef _ bases body => flat_map calls_e bases ++ flat_map calls_s body
  end.

Definition nb_calls (nb : notebook) : list expr :=
  flat_map calls_s (nb_stmts nb).

(** The name a call goes to: the function name, or the method name. *)
Definition callee_name (c : expr) : option string :=
  match c with
  | ECall (EName f) _ _ => Some f
  | ECall (EAttr _ m) _ _ => Some m
  | _ => None
  end.

(** The name at the root of an attribute/subscript/call chain. *)
Fixpoint root_name (e : expr) : option string :=
  match e with
  | EName x => Some x
  | EAttr a _ => root_name a
  | ESubscript a _ => root_name a
  | ECall f _ _ => root_name f
  | _ => None
  end.

Definition callee_root (c : expr) : option string :=
  match c with
  | ECall f _ _ => root_name f
  | _ => None
  end.

Definition call_args (c : expr) : list expr :=
  match c with ECall _ a _ => a | _ => [] end.

Definition call_kwargs (c : expr) : list (string * expr) :=
  match c with ECall _ _ k => k | _ => [] end.

(** Comprehensions, lambdas and conditional expressions in an expression. *)
Fixpoint plain_e (e : expr) : bool :=
  match e with
  | EName _ | ENum _ | EStr _ | EBool _ => true
  | ENeg a => plain_e a
  | EAttr a _ => plain_e a
  | ESubscript a i => plain_e a && plain_e i
  | ECall f args kw =>
      plain_e f && forallb plain_e args && forallb (fun p => plain_e p.2) kw
  | EList es | ETuple es => forallb plain_e es
  | EDict kvs => forallb (fun p => plain_e p.1 && plain_e p.2) kvs
  | ECompare l _ r => plain_e l && plain_e r
  | EListComp _ _ _ | ELambda _ _ | EIfExp _ _ _ => false
  end.

(** A statement is straight-line when it is an import, an assignment, an
    expression, a print or an IPython line, and its expressions hold no
    comprehension, lambda or conditional expression. *)
Definition straight_line_s (s : stmt) : bool :=
  match s with
  | SImport _ | SFromImport _ _ | SMagic _ | SShell _ => true
  | SAssign t v => plain_e t && plain_e v
  | SExpr e => plain_e e
  | SPrint args => forallb plain_e args
  | SFor _ _ _ | SWhile _ _ | SIf _ _ _ | STry _ _ _
  | SFunctionDef _ _ _ | SClassDef _ _ _ => false
  end.

Definition straight_line (c : cell) : bool :=
  forallb straight_line_s (cell_body c).

(** Loops and branches, at any depth. *)
Fixpoint has_for (s : stmt) : bool :=
  match s with
  | SFor _ _ _ => true
  | SWhile _ b => existsb has_for b
  | SIf _ b o => existsb has_for b || existsb has_for o
  | STry b h f => existsb has_for b || existsb has_for h || existsb has_for f
  | SFunctionDef _ _ b | SClassDef _ _ b => existsb has_for b
  | _ => false
  end.

Fixpoint has_if (s : stmt) : bool :=
  match s with
  | SIf _ _ _ => true
  | SFor _ _ b | SWhile _ b => existsb has_if b
  | STry b h f => existsb has_if b || existsb has_if h || existsb has_if f
  | SFunctionDef _ _ b | SClassDef _ _ b => existsb has_if b
  | _ => false
  end.

(** The names a statement defines as code of the repository: functions and
    classes (at any depth), and names bound to a lambda. *)
Fixpoint defined_callables (s : stmt) : list string :=
  match s with
  | SFunctionDef f _ b => f :: flat_map defined_callables b
  | SClassDef c _ b => c :: flat_map defined_callables b
  | SAssign (EName x) (ELambda _ _) => [x]
  | SFor _ _ b | SWhile _ b => flat_map defined_callables b
  | SIf _ b o => flat_map defined_callables b ++ flat_map defined_callables o
  | STry b h f =>
      flat_map defined_callables b ++ flat_map defined_callables h
        ++ flat_map defined_callables f
  | _ => []
  end.

(** [while] loops and [try] blocks, at any depth: what a retry loop, a
    scheduler loop or an error handler would be written with. *)
Fixpoint has_while_or_try (s : stmt) : bool :=
  match s with
  | SWhile _ _ | STry _ _ _ => true
  | SFor _ _ b => existsb has_while_or_try b
  | SIf _ b o => existsb has_while_or_try b || existsb has_while_or_try o
  | SFunctionDef _ _ b | SClassDef _ _ b => existsb has_while_or_try b
  | _ => false
  end.

(** The names an expression mentions. *)
Fixpoint names_e (e : expr) : list string :=
  match e with
  | EName x => [x]
  | ENum _ | EStr _ | EBool _ => []
  | ENeg a => names_e a
  | EAttr a _ => names_e a
  | ESubscript a i => names_e a ++ names_e i
  | ECall f args kw =>
      names_e f ++ flat_map names_e args ++ flat_map (fun p => names_e p.2) kw
  | EList es | ETuple es => flat_map names_e es
  | EDict kvs => flat_map (fun p => names_e p.1 ++ names_e p.2) kvs
  | ECompare l _ r => names_e l ++ names_e r
  | EListComp elt t it => names_e it ++ names_e t ++ names_e elt
  | ELambda _ b => names_e b
  | EIfExp c a b => names_e c ++ names_e a ++ names_e b
  end.

(** The names a statement mentions or binds, those of the statements
    inside it included. *)
Fixpoint names_s (s : stmt) : list string :=
  match s with
  | SImport m => [m]
  | SFromImport _ names => names
  | SMagic _ | SShell _ => []
  | SAssign t v => names_e t ++ names_e v
  | SExpr e => names_e e
  | SPrint args => flat_map names_e args
  | SFor t it body => names_e t ++ names_e it ++ flat_map names_s body
  | SWhile c body => names_e c ++ flat_map names_s body
  | SIf c body orelse =>
      names_e c ++ flat_map names_s body ++ flat_map names_s orelse
  | STry body handler final =>
      flat_map names_s body ++ flat_map names_s handler
        ++ flat_map names_s final
  | SFunctionDef f _ body => f :: flat_map names_s body
  | SClassDef c bases body =>
      c :: flat_map names_e bases ++ flat_map names_s body
  end.

(** The string literals of an expression and of a statement. *)
Fixpoint strings_e (e : expr) : list string :=
  match e with
  | EStr x => [x]
  | EName _ | ENum _ | EBool _ => []
  | ENeg a => strings_e a
  | EAttr a _ => strings_e a
  | ESubscript a i => strings_e a ++ strings_e i
  | ECall f args kw =>
      strings_e f ++ flat_map strings_e args
        ++ flat_map (fun p => strings_e p.2) kw
  | EList es | ETuple es => flat_map strings_e es
  | EDict kvs => flat_map (fun p => strings_e p.1 ++ strings_e p.2) kvs
  | ECompare l _ r => strings_e l ++ strings_e r
  | EListComp elt t it => strings_e it ++ strings_e t ++ strings_e elt
  | ELambda _ b => strings_e b
  | EIfExp c a b => strings_e c ++ strings_e a ++ strings_e b
  end.

Fixpoint strings_s (s : stmt) : list string :=
  match s with
  | SImport _ | SFromImport _ _ | SMagic _ | SShell _ => []
  | SAssign t v => strings_e t ++ strings_e v
  | SExpr e => strings_e e
  | SPrint args => flat_map strings_e args
  | SFor t it body => strings_e t ++ strings_e it ++ flat_map strings_s body
  | SWhile c body => strings_e c ++ flat_map strings_s body
  | SIf c body orelse =>
      strings_e c ++ flat_map strings_s body ++ flat_map strings_s orelse
  | STry body handler final =>
      flat_map strings_s body ++ flat_map strings_s handler
        ++ flat_map strings_s final
  | SFunctionDef _ _ body => flat_map strings_s body
  | SClassDef _ bases body => flat_map strings_e bases ++ flat_map strings_s body
  end.

(** Compound statements, and the statements inside a statement, at any
    depth. *)
Definition compound (s : stmt) : bool :=
  match s with
  | SFor _ _ _ | SWhile _ _ | SIf _ _ _ | STry _ _ _
  | SFunctionDef _ _ _ | SClassDef _ _ _ => true
  | _ => false
  end.

Fixpoint inner_stmts (s : stmt) : list stmt :=
  match s with
  | SFor _ _ b | SWhile _ b | SFunctionDef _ _ b | SClassDef _ _ b =>
      flat_map (fun x => x :: inner_stmts x) b
  | SIf _ b o =>
      flat_map (fun x => x :: inner_stmts x) b
        ++ flat_map (fun x => x :: inner_stmts x) o
  | STry b h f =>
      flat_map (fun x => x :: inner_stmts x) b
        ++ flat_map (fun x => x :: inner_stmts x) h
        ++ flat_map (fun x => x :: inner_stmts x) f
  | _ => []
  end.

(** Every statement of a notebook: the top-level ones, each followed by
    the statements inside it. *)
Definition all_stmts (nb : notebook) : list stmt :=
  flat_map (fun s => s :: inner_stmts s) (nb_stmts nb).

(** The comprehensions of an expression. *)
Fixpoint comprehensions_e (e : expr) : list expr :=
  match e with
  | EName _ | ENum _ | EStr _ | EBool _ => []
  | ENeg a => comprehensions_e a
  | EAttr a _ => comprehensions_e a
  | ESubscript a i => comprehensions_e a ++ comprehensions_e i
  | ECall f args kw =>
      comprehensions_e f ++ flat_map comprehensions_e args
        ++ flat_map (fun p => comprehensions_e p.2) kw
  | EList es | ETuple es => flat_map comprehensions_e es
  | EDict kvs =>
      flat_map (fun p => comprehensions_e p.1 ++ comprehensions_e p.2) kvs
  | ECompare l _ r => comprehensions_e l ++ comprehensions_e r
  | EListComp elt t it =>
      e :: comprehensions_e it ++ comprehensions_e elt
  | ELambda _ b => comprehensions_e b
  | EIfExp c a b =>
      comprehensions_e c ++ comprehensions_e a ++ comprehensions_e b
  end.

Definition comprehensions_s (s : stmt) : list expr :=
  match s with
  | SAssign t v => comprehensions_e t ++ comprehensions_e v
  | SExpr e => comprehensions_e e
  | SPrint args => flat_map comprehensions_e args
  | SFor t it _ => comprehensions_e t ++ comprehensions_e it
  | SWhile c _ | SIf c _ _ => comprehensions_e c
  | SClassDef _ bases _ => flat_map comprehensions_e bases
  | _ => []
  end.

(** The names a statement binds by assignment or as a loop variable. *)
Definition targets_e (t : expr) : list string :=
  match t with
  | EName x => [x]
  | ETuple es | EList es =>
      flat_map (fun e => match e with EName x => [x] | _ => [] end) es
  | _ => []
  end.

Definition binds_s (s : stmt) : list string :=
  match s with
  | SAssign t _ => targets_e t
  | SFor t _ _ => targets_e t
  | _ => []
  end.

(** The names a notebook imports, with the module they come from. *)
Definition imports_s (s : stmt) : list (string * string) :=
  match s with
  | SImport m => [(m, m)]
  | SFromImport m names => map (fun x => (m, x)) names
  | _ => []
  end.

Definition nb_imports (nb : notebook) : list (string * string) :=
  flat_map imports_s (nb_stmts nb).

(** The module a name is imported from, if it is imported at all. *)
Definition imported_from (nb : notebook) (x : string) : option string :=
  fst <$> List.find (fun p => String.eqb p.2 x) (nb_imports nb).

End Py.

(** ** The two notebooks *)

Module Nb.
Import Py.

Local Abbreviation var := EName.
Local Abbreviation str := EStr.
Local Abbreviation num := ENum.

(** [pymatgen_core/pymatgen_core.ipynb]: 35 cells, 17 of them code. *)
Definition pymatgen_core : notebook :=
  [ (* 0 *) Markdown;
    (* 1 *) Markdown;
    (* 2 *) Code
      [ SFromImport "pymatgen" ["Structure"; "Lattice"; "MPRester"] ];
    (* 3 *) Markdown;
    (* 4 *) Code
      [ SAssign (var "lattice")
          (call (var "Lattice")
             [EList [nums ["2.8"; "0"; "0"]; nums ["0"; "2.8"; "0"];
                     nums ["0"; "0"; "2.8"]]]);
        SAssign (var "lattice")
          (meth (var "Lattice") "from_lengths_and_angles"
             [nums ["2.8"; "2.8"; "2.8"]; nums ["90"; "90"; "90"]]);
        SExpr (meth (var "lattice") "cubic" [num "2.8"]);
        SExpr (methk (var "lattice") "hexagonal" []
                 [("a", num "2.8"); ("c", num "3.6")]);
        SExpr (methk (var "lattice") "rhombohedral" []
                 [("a", num "2.8"); ("alpha", num "60")]);
        SPrint [str "a = "; EAttr (var "lattice") "a"];
        SPrint [str "alpha = "; EAttr (var "lattice") "alpha"];
        SPrint [str "volume = "; EAttr (var "lattice") "volume"] ];
    (* 5 *) Markdown;
    (* 6 *) Code
      [ SAssign (var "bcc_fe")
          (call (var "Structure")
             [var "lattice"; strs ["Fe"; "Fe"];
              EList [nums ["0"; "0"; "0"]; nums ["0.5"; "0.5"; "0.5"]]]);
        SAssign (var "site0") (ESubscript (var "bcc_fe") (num "0"));
        SExpr (EAttr (var "site0") "coords");
        SExpr (EAttr (var "site0") "species_string");
        SExpr (EAttr (var "site0") "x");
        SAssign (var "bcc_fe")
          (meth (var "Structure") "from_spacegroup"
             [str "Im-3m"; meth (var "Lattice") "cubic" [num "2.8"];
              strs ["Fe"]; EList [nums ["0"; "0"; "0"]]]);
        SPrint [var "bcc_fe"];
        SAssign (var "nacl")
          (meth (var "Structure") "from_spacegroup"
             [str "Fm-3m"; meth (var "Lattice") "cubic" [num "5.692"];
              strs ["Na+"; "Cl-"];
              EList [nums ["0"; "0"; "0"]; nums ["0.5"; "0.5"; "0.5"]]]);
        SAssign (var "big_structure")
          (meth (var "Structure") "from_file" [str "Nb2O5.cif"]);
        SExpr (EAttr (var "big_structure") "formula") ];
    (* 7 *) Markdown;
    (* 8 *) Code
      [ SAssign (var "specie")
          (EDict [(str "Cu0+", num "0.5"); (str "Au0+", num "0.5")]);
        SAssign (var "cu_au")
          (meth (var "Structure") "from_spacegroup"
             [str "Fm-3m"; meth (var "Lattice") "cubic" [num "3.677"];
              EList [var "specie"]; EList [nums ["0"; "0"; "0"]]]);
        SPrint [var "cu_au"] ];
    (* 9 *) Markdown;
    (* 10 *) Code
      [ SAssign (ESubscript (var "big_structure") (num "0")) (str "V");
        SExpr (EAttr (var "big_structure") "formula");
        SAssign (ESubscript (var "big_structure") (num "0")) (str "Nb");
        SExpr (meth (var "bcc_fe") "append"
                 [str "C"; nums ["0.25"; "0.25"; "0.25"]]);
        SExpr (meth (var "bcc_fe") "pop" [ENeg (num "1")]);
        SExpr (meth (var "bcc_fe") "make_supercell" [nums ["2"; "2"; "2"]]);
        SAssign (var "sd") (EList []);
        SAssign (var "names") (EList []);
        SFor (var "n")
          (call (var "range") [EAttr (var "big_structure") "num_sites"])
          [ SIf (ECompare
                   (EAttr (ESubscript (var "big_structure") (var "n"))
                      "species_string")
                   "==" (str "Nb"))
              [ SExpr (meth (var "sd") "append"
                         [EList [EBool false; EBool false; EBool false]]) ]
              [ SExpr (meth (var "sd") "append"
                         [EList [EBool true; EBool true; EBool true]]) ] ];
        SExpr (meth (var "big_structure") "add_site_property"
                 [str "selective_dynamics"; var "sd"]);
        SExpr (methk (var "big_structure") "to" []
                 [("filename", str "POSCAR")]) ];
    (* 11 *) Markdown;
    (* 12 *) Code
      [ SAssign (var "mpr") (call (var "MPRester") []);
        SAssign (var "structure")
          (ESubscript (meth (var "mpr") "get_structures" [str "BaNiO3"])
             (num "0"));
        SFor (var "n")
          (call (var "range") [EAttr (var "structure") "num_sites"])
          [ SIf (ECompare
                   (EAttr (ESubscript (var "structure") (var "n"))
                      "species_string")
                   "==" (str "O"))
              [ SAssign (ESubscript (var "structure") (var "n")) (str "F") ]
              [] ];
        SExpr (meth (var "structure") "replace_species"
                 [EDict [(str "F", str "O")]]) ];
    (* 13 *) Markdown;
    (* 14 *) Code
      [ SFromImport "pymatgen.transformations.standard_transformations"
          ["SubstitutionTransformation"; "DeformStructureTransformation";
           "OrderDisorderedStructureTransformation";
           "RotationTransformation"];
        SAssign (var "structure")
          (ESubscript (meth (var "mpr") "get_structures" [str "BaNiO3"])
             (num "0"));
        SAssign (var "st")
          (call (var "SubstitutionTransformation")
             [EDict [(str "O", str "F")]]);
        SAssign (var "new_structure")
          (meth (var "st") "apply_transformation" [var "structure"]);
        SAssign (var "old_structure")
          (meth (EAttr (var "st") "inverse") "apply_transformation"
             [var "new_structure"]);
        SExpr (ECompare (var "old_structure") "==" (var "structure"));
        SAssign (var "odst")
          (call (var "OrderDisorderedStructureTransformation") []);
        SAssign (var "ss")
          (meth (var "odst") "apply_transformation" [var "cu_au"]);
        SExpr (call (var "len") [var "ss"]) ];
    (* 15 *) Markdown;
    (* 16 *) Code
      [ SFromImport "pymatgen.symmetry.analyzer" ["SpacegroupAnalyzer"];
        SAssign (var "sga") (call (var "SpacegroupAnalyzer") [var "bcc_fe"]);
        SAssign (var "prim")
          (meth (var "sga") "get_primitive_standard_structure" []);
        SExpr (meth (var "sga") "get_conventional_standard_structure" []);
        SExpr (meth (var "sga") "get_crystal_system" []);
        SExpr (meth (var "sga") "get_spacegroup_symbol" []) ];
    (* 17 *) Markdown;
    (* 18 *) Code
      [ SFromImport "pymatgen.analysis.structure_matcher"
          ["StructureMatcher"];
        SAssign (var "sm") (call (var "StructureMatcher") []);
        SExpr (meth (var "sm") "fit" [var "bcc_fe"; var "prim"]) ];
    (* 19 *) Markdown;
    (* 20 *) Code
      [ SAssign (var "query")
          (meth (var "mpr") "query"
             [EDict [(str "anonymous_formula",
                      EDict [(str "A", num "1"); (str "B", num "3");
                             (str "C", num "6")])];
              EDict [(str "structure", num "1")]]) ];
    (* 21 *) Code
      [ SAssign (var "structures")
          (EListComp (ESubscript (var "q") (str "structure"))
             (var "q") (var "query"));
        SAssign (var "wo3")
          (meth (var "mpr") "get_structure_by_material_id"
             [str "mp-33319"]);
        SAssign (var "sm") (call (var "StructureMatcher") []);
        SAssign (var "matches") (EList []);
        SFor (var "structure") (var "structures")
          [ SIf (meth (var "sm") "fit_anonymous"
                   [var "structure"; var "wo3"])
              [ SExpr (meth (var "matches") "append" [var "structure"]) ]
              [] ] ];
    (* 22 *) Markdown;
    (* 23 *) Code
      [ SFromImport "pymatgen.analysis.diffraction.xrd"
          ["XRDCalculator"; "ATOMIC_SCATTERING_PARAMS"];
        SExpr (EAttr (var "XRDCalculator") "AVAILABLE_RADIATION");
        SAssign (var "xrdc") (call (var "XRDCalculator") []);
        SAssign (var "big_xrd")
          (meth (var "xrdc") "get_xrd_data" [var "big_structure"]) ];
    (* 24 *) Code
      [ SMagic "matplotlib inline" ];
    (* 25 *) Markdown;
    (* 26 *) Code
      [ SAssign (var "lis_structures")
          (meth (var "mpr") "get_structures" [str "Li-S"]);
        SAssign (var "data")
          (methk (var "xrdc") "get_xrd_data"
             [ESubscript (var "lis_structures") (num "0")]
             [("two_theta_range", nums ["10"; "80"])]);
        SFor (ETuple [var "n"; var "lis_structure"])
          (call (var "enumerate") [var "lis_structures"])
          [ SAssign (var "data")
              (methk (var "xrdc") "get_xrd_data" [var "lis_structure"]
                 [("two_theta_range", nums ["10"; "80"])]);
            SIf (ECompare (call (var "len") [var "data"]) "==" (num "8"))
              [ SPrint [var "lis_structure"] ]
              [] ] ];
    (* 27 *) Markdown;
    (* 28 *) Code
      [ SFromImport "pymatgen.analysis.diffraction.xrd" ["XRDCalculator"];
        SFromImport "pymatgen.electronic_structure.plotter"
          ["BSPlotter"; "DosPlotter"];
        SFromImport "pymatgen.electronic_structure.core" ["OrbitalType"];
        SAssign (var "bs")
          (meth (var "mpr") "get_bandstructure_by_material_id"
             [str "mp-2657"]);
        SPrint [meth (var "bs") "get_band_gap" []];
        SAssign (var "plotter") (call (var "BSPlotter") [var "bs"]);
        SAssign (var "dos")
          (meth (var "mpr") "get_dos_by_material_id" [str "mp-2657"]);
        SAssign (var "dp") (call (var "DosPlotter") []);
        SAssign (var "dos_ti")
          (meth (var "dos") "get_element_spd_dos" [str "Ti"]);
        SAssign (var "dos_o")
          (meth (var "dos") "get_element_spd_dos" [str "O"]);
        SExpr (meth (var "dp") "add_dos"
                 [str "O p-states";
                  ESubscript (var "dos_o") (EAttr (var "OrbitalType") "p")]);
        SExpr (meth (var "dp") "add_dos"
                 [str "Ti d-states";
                  ESubscript (var "dos_ti") (EAttr (var "OrbitalType") "d")])
      ];
    (* 29 *) Markdown;
    (* 30 *) Markdown;
    (* 31 *) Code
      [ SImport "json";
        SAssign (var "data")
          (meth (var "json") "load"
             [call (var "open") [str "sample_elastic.json"]]);
        SAssign (var "si_struct")
          (meth (var "Structure") "from_dict"
             [ESubscript (var "data") (num "0")]);
        SAssign (var "et")
          (meth (var "ElasticTensor") "from_voigt"
             [ESubscript (var "data") (num "1")]);
        SPrint [ESubscript (var "data") (num "1")];
        SExpr (meth (EAttr (meth (var "et") "fit_to_structure"
                              [var "si_struct"]) "voigt")
                 "round" [num "2"]) ];
    (* 32 *) Markdown;
    (* 33 *) Markdown;
    (* 34 *) Code
      [ SFromImport "pymatgen.symmetry.analyzer" ["SpacegroupAnalyzer"];
        SFromImport "pymatgen.core.surface" ["generate_all_slabs"];
        SAssign (var "lattice")
          (meth (var "Lattice") "cubic" [num "2.85"]);
        SAssign (var "structure")
          (call (var "Structure")
             [var "lattice"; strs ["Fe"; "Fe"];
              EList [nums ["0"; "0"; "0"]; nums ["0.5"; "0.5"; "0.5"]]]);
        SAssign (var "slabs")
          (call (var "generate_all_slabs")
             [var "structure"; num "1"; num "4"; num "10"]);
        SAssign (var "first_slab") (ESubscript (var "slabs") (num "0"));
        SExpr (EAttr (var "first_slab") "miller_index");
        SFor (var "slab") (var "slabs")
          [ SPrint [EAttr (var "slab") "miller_index"] ] ] ].

(** [manual_wflow/Si_bandstructure.ipynb]: 41 cells, 21 of them code. *)
Definition Si_bandstructure : notebook :=
  [ (* 0 *) Markdown;
    (* 1 *) Markdown;
    (* 2 *) Code
      [ SMagic "matplotlib inline";
        SImport "pprint";
        SImport "os";
        SImport "tarfile";
        SImport "glob";
        SImport "matplotlib" ];
    (* 3 *) Code
      [ SExpr (meth (var "os") "mkdir" [str "Si_BandStructure"]);
        SExpr (meth (var "os") "chdir" [str "Si_BandStructure"]) ];
    (* 4 *) Markdown;
    (* 5 *) Code
      [ SFromImport "pymatgen.util.testing" ["PymatgenTest"];
        SAssign (var "struct_si")
          (meth (var "PymatgenTest") "get_structure" [str "Si"]);
        SPrint [var "struct_si"] ];
    (* 6 *) Markdown;
    (* 7 *) Code
      [ SFromImport "pymatgen.io.vasp.inputs" ["Poscar"];
        SAssign (var "Pos") (call (var "Poscar") [var "struct_si"]);
        SPrint [var "Pos"] ];
    (* 8 *) Markdown;
    (* 9 *) Code
      [ SFromImport "pymatgen.io.vasp.inputs" ["Kpoints"];
        SAssign (var "kp") (call (var "Kpoints") []);
        SAssign (var "kp")
          (meth (var "kp") "automatic_gamma_density"
             [var "struct_si"; num "600"]);
        SPrint [var "kp"] ];
    (* 10 *) Markdown;
    (* 11 *) Code
      [ SFromImport "pymatgen.io.vasp.inputs" ["Potcar"];
        SAssign (var "pots") (call (var "Potcar") [strs ["Si"]]);
        SPrint [var "pots"] ];
    (* 12 *) Markdown;
    (* 13 *) Code
      [ SAssign (var "pots_lda")
          (ECall (var "Potcar") [strs ["Si"]] [("functional", str "LDA")]);
        SPrint [var "pots"] ];
    (* 14 *) Markdown;
    (* 15 *) Code
      [ SFromImport "pymatgen.io.vasp.inputs" ["Incar"];
        SAssign (var "inc")
          (call (var "Incar")
             [EDict [(str "NELM", num "100");
                     (str "IBRION", num "2");
                     (str "LWAVE", EBool false);
                     (str "ISMEAR", ENeg (num "5"));
                     (str "SIGMA", num "0.05");
                     (str "MAGMOM", nums ["0.6"; "0.6"]);
                     (str "ENCUT", num "520");
                     (str "ISIF", num "3");
                     (str "EDIFF", num "0.0001");
                     (str "NSW", num "99");
                     (str "LREAL", str "Auto");
                     (str "PREC", str "Accurate");
                     (str "ALGO", str "Fast");
                     (str "ISPIN", num "2");
                     (str "LORBIT", num "11")]]);
        SPrint [var "inc"] ];
    (* 16 *) Markdown;
    (* 17 *) Code
      [ SFromImport "pymatgen.io.vasp.sets" ["MPRelaxSet"];
        SAssign (var "vis")
          (ECall (var "MPRelaxSet") [var "struct_si"]
             [("force_gamma", EBool true)]);
        SPrint [EAttr (var "vis") "poscar"];
        SPrint [EAttr (var "vis") "kpoints"];
        SPrint [EAttr (var "vis") "incar"];
        SPrint [EAttr (var "vis") "potcar"];
        SExpr (meth (var "vis") "write_input" [str "."]) ];
    (* 18 *) Markdown;
    (* 19 *) Code
      [ SShell "cp ../outputs/Si_Opt/* .";
        SShell "ls" ];
    (* 20 *) Markdown;
    (* 21 *) Code
      [ SFromImport "pymatgen.io.vasp.outputs" ["Vasprun"];
        SAssign (var "vrun") (call (var "Vasprun") [str "vasprun.xml"]);
        SExpr (meth (var "vrun") "as_dict" []) ];
    (* 22 *) Markdown;
    (* 23 *) Code
      [ SShell "mkdir opt";
        SShell "mv * opt";
        SShell "ls" ];
    (* 24 *) Markdown;
    (* 25 *) Code
      [ SFromImport "pymatgen.io.vasp.sets" ["MPStaticSet"];
        SAssign (var "static_vis")
          (meth (var "MPStaticSet") "from_prev_calc" [str "./opt"]);
        SExpr (meth (var "static_vis") "write_input" [str "."]);
        SShell "ls" ];
    (* 26 *) Markdown;
    (* 27 *) Code
      [ SFromImport "custodian" ["Custodian"];
        SFromImport "custodian.vasp.handlers" ["VaspErrorHandler"];
        SFromImport "custodian.vasp.jobs" ["VaspJob"];
        SFromImport "custodian.vasp.validators" ["VasprunXMLValidator"];
        SAssign (var "handlers")
          (EList [call (var "VaspErrorHandler") []]);
        SAssign (var "jobs")
          (EList [ECall (var "VaspJob") []
                    [("vasp_cmd", strs ["echo"; "hello"])]]);
        SAssign (var "validators")
          (EList [call (var "VasprunXMLValidator") []]);
        SAssign (var "c")
          (call (var "Custodian")
             [var "handlers"; var "jobs"; var "validators"]);
        SExpr (meth (var "c") "run" []) ];
    (* 28 *) Markdown;
    (* 29 *) Code
      [ SShell "cp ../outputs/Si_Static/* .";
        SExpr (meth (var "c") "run" []) ];
    (* 30 *) Markdown;
    (* 31 *) Code
      [ SShell "mkdir static";
        SShell "mv * static" ];
    (* 32 *) Markdown;
    (* 33 *) Code
      [ SFromImport "pymatgen.io.vasp.sets" ["MPNonSCFSet"];
        SAssign (var "NonSCF_vis")
          (methk (var "MPNonSCFSet") "from_prev_calc" [str "./static"]
             [("mode", str "Line")]);
        SPrint [EAttr (var "NonSCF_vis") "kpoints"] ];
    (* 34 *) Code
      [ SExpr (meth (var "NonSCF_vis") "write_input" [str "."]);
        SShell "ls" ];
    (* 35 *) Markdown;
    (* 36 *) Code
      [ SShell "cp ../outputs/Si_NonSCF/* .";
        SShell "ls" ];
    (* 37 *) Markdown;
    (* 38 *) Code
      [ SFromImport "pymatgen.io.vasp.outputs" ["Vasprun"];
        SFromImport "pymatgen.electronic_structure.plotter" ["BSPlotter"];
        SAssign (var "vrun") (call (var "Vasprun") [str "vasprun.xml"]);
        SAssign (var "band_struc")
          (methk (var "vrun") "get_band_structure" []
             [("kpoints_filename", str "KPOINTS");
              ("line_mode", EBool true)]);
        SAssign (var "bs_plotter") (call (var "BSPlotter") [var "band_struc"]);
        SExpr (meth (var "bs_plotter") "show" []) ];
    (* 39 *) Markdown;
    (* 40 *) Code
      [ SExpr (meth (var "os") "chdir" [str ".."]);
        SShell "rm -Rf Si_BandStructure" ] ].

(** The files of the repository that hold Python code. *)
Definition notebooks : list notebook := [pymatgen_core; Si_bandstructure].

End Nb.

(** ** Library operations named by the specification *)

Module Ops.
Import Py.

Definition name_is (o : option string) (l : list string) : bool :=
  match o with
  | Some x => Str.in_list x l
  | None => false
  end.

(** The steps of the core notebook, in the order the specification states
    them. *)
Inductive operation :=
| ConstructLattice
| ConstructStructure
| SymmetryAnalyzer
| StructureMatcher
| DiffractionCalculator
| TensorFitting
| SurfaceGeneration.

Definition stated_order : list operation :=
  [ConstructLattice; ConstructStructure; SymmetryAnalyzer; StructureMatcher;
   DiffractionCalculator; TensorFitting; SurfaceGeneration].

(** Which calls perform an operation: constructors and class methods of
    [Lattice] (also reached through the instance [lattice]) and of
    [Structure]; the analyzer, matcher and calculator classes and the
    queries the notebook makes on their instances; the fitting method; the
    slab generator. *)
Definition performs (op : operation) (c : expr) : bool :=
  match op with
  | ConstructLattice => name_is (callee_root c) ["Lattice"; "lattice"]
  | ConstructStructure => name_is (callee_root c) ["Structure"]
  | SymmetryAnalyzer =>
      name_is (callee_name c)
        ["SpacegroupAnalyzer"; "get_primitive_standard_structure";
         "get_conventional_standard_structure"; "get_crystal_system";
         "get_spacegroup_symbol"]
  | StructureMatcher =>
      name_is (callee_name c) ["StructureMatcher"; "fit"; "fit_anonymous"]
  | DiffractionCalculator =>
      name_is (callee_name c) ["XRDCalculator"; "get_xrd_data"]
  | TensorFitting => name_is (callee_name c) ["fit_to_structure"]
  | SurfaceGeneration => name_is (callee_name c) ["generate_all_slabs"]
  end.

(** Positions are indices in the notebook's calls, in evaluation order. *)
Definition occurrences (op : operation) (nb : notebook) : list nat :=
  Util.positions (performs op) (nb_calls nb).

Definition first_occurrence (op : operation) (nb : notebook) : option nat :=
  head (occurrences op nb).

(** [a] is listed before [b]. *)
Definition listed_before (l : list operation) (a b : operation) : Prop :=
  ∃ i j, i < j ∧ l !! i = Some a ∧ l !! j = Some b.

(** The order as the claim words it: every operation occurs, and no
    occurrence of a later-listed operation precedes an occurrence of an
    earlier-listed one. *)
Definition in_stated_order (nb : notebook) : Prop :=
  (∀ op, In op stated_order → occurrences op nb ≠ [])
  ∧ (∀ a b, listed_before stated_order a b →
       ∀ i j, In i (occurrences a nb) → In j (occurrences b nb) → ¬ j < i).

(** The operations the specification calls nontrivial, by the name through
    which the notebooks reach them. *)
Definition delegated_entry_points : list string :=
  [ "SpacegroupAnalyzer";   (* symmetry detection *)
    "StructureMatcher";     (* structure matching *)
    "XRDCalculator";        (* XRD pattern computation *)
    "fit_to_structure";     (* tensor fitting *)
    "generate_all_slabs";   (* slab generation *)
    "Custodian" ].          (* error handling and job retry *)

Definition repo_stmts : list stmt := flat_map nb_stmts Nb.notebooks.
Definition repo_calls : list expr := flat_map nb_calls Nb.notebooks.

(** Names the repository itself defines as functions or classes. *)
Definition repo_defined : list string := flat_map defined_callables repo_stmts.

Definition external_module (m : string) : bool :=
  existsb (fun p => String.eqb m p || Str.starts_with (p +:+ ".") m)
          ["pymatgen"; "custodian"].

(** *** Where the names that are called come from *)

(** Builtin functions of Python that the notebooks call. *)
Definition python_builtins : list string :=
  ["range"; "len"; "enumerate"; "open"].

(** Modules of the standard library that the notebooks import. *)
Definition stdlib_modules : list string :=
  ["json"; "os"; "pprint"; "tarfile"; "glob"].

Inductive binding :=
| Imported (module : string)
| Builtin
| Assigned
| Free.

(** The names a notebook binds by assignment or as loop or comprehension
    variables, anywhere. *)
Definition assigned_names (nb : notebook) : list string :=
  flat_map binds_s (all_stmts nb)
  ++ flat_map (fun c => match c with
                        | EListComp _ t _ => targets_e t
                        | _ => []
                        end)
       (flat_map comprehensions_s (all_stmts nb)).

(** How a notebook binds a name: by an import, as a builtin, by an
    assignment; a name with none of these is free in the notebook. *)
Definition binding_of (nb : notebook) (x : string) : binding :=
  match imported_from nb x with
  | Some m => Imported m
  | None =>
      if Str.in_list x python_builtins then Builtin
      else if Str.in_list x (assigned_names nb) then Assigned
      else Free
  end.

Definition is_free (nb : notebook) (x : string) : bool :=
  match binding_of nb x with Free => true | _ => false end.

Fixpoint dedup (l : list string) : list string :=
  match l with
  | [] => []
  | x :: rest => if Str.in_list x rest then dedup rest else x :: dedup rest
  end.

(** The names at the root of the calls of a notebook. *)
Definition callee_roots (nb : notebook) : list string :=
  dedup (omap callee_root (nb_calls nb)).

(** A module of a library the repository does not hold. *)
Definition library_module (m : string) : bool :=
  external_module m || Str.in_list m stdlib_modules
  || String.eqb m "matplotlib".

(** The right-hand sides of the assignments to a name. *)
Definition assignments_of (nb : notebook) (x : string) : list expr :=
  omap (fun s => match s with
                 | SAssign (EName y) v => if String.eqb x y then Some v else None
                 | _ => None
                 end) (all_stmts nb).

(** *** Loops and branches *)

(** The compound statements at the top level of the cells. *)
Definition compound_stmts (nb : notebook) : list stmt :=
  List.filter compound (nb_stmts nb).

(** The names called inside compound statements (their headers included),
    in evaluation order. *)
Definition calls_in_compounds (nb : notebook) : list string :=
  omap callee_name (flat_map calls_s (compound_stmts nb)).

Definition comprehensions (nb : notebook) : list expr :=
  flat_map comprehensions_s (all_stmts nb).

Definition is_shell (s : stmt) : bool :=
  match s with SShell _ => true | _ => false end.

(** *** The job-management framework *)

Inductive component := Handler | Job | Validator.

(** The kind of framework component a call constructs, from the module its
    callee is imported from ([custodian.vasp.handlers], [.jobs],
    [.validators]). *)
Definition component_kind (nb : notebook) (c : expr) : option component :=
  match c with
  | ECall (EName f) _ _ =>
      match imported_from nb f with
      | Some m =>
          if negb (Str.starts_with "custodian." m) then None
          else match last (Str.split_on "."%char m) with
               | Some "handlers" => Some Handler
               | Some "jobs" => Some Job
               | Some "validators" => Some Validator
               | _ => None
               end
      | None => None
      end
  | _ => None
  end.

(** The names that stand for the framework in a notebook: what is imported
    from [custodian], and every variable assigned from an expression that
    mentions such a name (in program order). *)
Definition fw_step (fw : list string) (s : stmt) : list string :=
  match s with
  | SAssign t v =>
      if existsb (fun n => Str.in_list n fw) (names_e v)
      then fw ++ targets_e t else fw
  | SFor t it _ =>
      if existsb (fun n => Str.in_list n fw) (names_e it)
      then fw ++ targets_e t else fw
  | _ => fw
  end.

Definition framework_names (nb : notebook) : list string :=
  fold_left fw_step (all_stmts nb)
    (omap (fun p : string * string =>
             if String.eqb p.1 "custodian" || Str.starts_with "custodian." p.1
             then Some p.2 else None) (nb_imports nb)).

Definition touches_framework (nb : notebook) (s : stmt) : bool :=
  existsb (fun n => Str.in_list n (framework_names nb)) (names_s s).

(** The statements of a notebook that mention the framework. *)
Definition framework_stmts (nb : notebook) : list stmt :=
  List.filter (touches_framework nb) (all_stmts nb).

(** The statements inside compound statements that mention the framework
    or run a shell command: what a hand-written retry or scheduling loop
    would hold. *)
Definition jobs_in_compounds (nb : notebook) : list stmt :=
  List.filter (fun s => touches_framework nb s || is_shell s)
              (flat_map inner_stmts (nb_stmts nb)).

Definition components (nb : notebook) : list (component * expr) :=
  omap (fun c => (fun k => (k, c)) <$> component_kind nb c) (nb_calls nb).

Definition default_constructed (c : expr) : Prop :=
  call_args c = [] ∧ call_kwargs c = [].

(** Every handler, job and validator is built with no argument at all. *)
Definition components_default (nbs : list notebook) : Prop :=
  ∀ nb k c, In nb nbs → In (k, c) (components nb) → default_constructed c.

(** Every cell of every notebook is straight-line code. *)
Definition all_straight_line (nbs : list notebook) : Prop :=
  ∀ nb c, In nb nbs → In c nb → straight_line c = true.

(** The cells that are not. *)
Definition branching_cells (nb : notebook) : list nat :=
  Util.positions (fun c => negb (straight_line c)) nb.

End Ops.

(** ** The file system and the effects of a notebook run *)

Module FS.
Import Py.

(** A directory tree: a file with its content, or a directory with its
    entries by name. *)
Inductive node :=
| File (data : string)
| Dir (entries : gmap string node).

Abbreviation dir := (gmap string node).

(** The whole tree below the file-system root, and the working directory
    as the list of names leading to it. *)
Record state := State { root : dir; cwd : list string }.

(** How the run of a statement ends: normally, with a Python exception, or
    on a form of statement this model does not cover. *)
Inductive outcome :=
| Done (st : state)
| Raised (exn : string)
| Unsupported.

Definition bind (o : outcome) (k : state → outcome) : outcome :=
  match o with
  | Done st => k st
  | Raised e => Raised e
  | Unsupported => Unsupported
  end.

(** The directory at a path, if the path leads to a directory. *)
Fixpoint get_dir (p : list string) (d : dir) : option dir :=
  match p with
  | [] => Some d
  | x :: p' =>
      match d !! x with
      | Some (Dir e) => get_dir p' e
      | _ => None
      end
  end.

(** [at_path p f d] rewrites the directory at [p] by [f] and leaves the
    rest of the tree as it is. *)
Fixpoint at_path (p : list string) (f : dir → dir) (d : dir) : option dir :=
  match p with
  | [] => Some (f d)
  | x :: p' =>
      match d !! x with
      | Some (Dir e) => (λ e', <[x := Dir e']> d) <$> at_path p' f e
      | _ => None
      end
  end.

(** A path as written in the source, walked from the working directory
    component by component: [.] stays, [..] goes up (and stays at the
    root), a name goes down and must lead to a directory. *)
Definition walk_component (r : dir) (acc : option (list string)) (c : string)
    : option (list string) :=
  p ← acc;
  if String.eqb c EmptyString || String.eqb c "." then Some p
  else if String.eqb c ".." then Some (removelast p)
  else match get_dir (p ++ [c]) r with
       | Some _ => Some (p ++ [c])
       | None => None
       end.

Definition walk (r : dir) (wd : list string) (path : string)
    : option (list string) :=
  fold_left (walk_component r) (Str.split_on "/"%char path)
            (Some (if Str.starts_with "/" path then [] else wd)).

(** The directory a path leads to, if it leads to one. *)
Definition source_dir (st : state) (path : string) : option dir :=
  q ← walk (root st) (cwd st) path; get_dir q (root st).

(** A name with no [/] in it that is neither [.] nor [..]. *)
Definition simple_name (x : string) : bool :=
  negb (Str.mem "/"%char x) && negb (String.eqb x EmptyString)
  && negb (String.eqb x ".") && negb (String.eqb x "..").

(** A word that [cp], [mv], [mkdir] and [rm] read as an option, not as a
    name. *)
Definition reads_as_option (x : string) : bool := Str.starts_with "-" x.

(** A name that can be given to these commands as it is. *)
Definition shell_name (x : string) : bool :=
  simple_name x && negb (reads_as_option x).

(** What the shell's [*] matches: names that do not start with a dot. *)
Definition visible (x : string) : bool := negb (Str.starts_with "." x).

Definition visible_entries (d : dir) : list (string * node) :=
  List.filter (fun p => visible p.1) (map_to_list d).

(** *** Shell commands, as functions on the working directory *)

(** [cp SRC/* .]: every visible regular file of the source directory is
    copied; directories are left out (no [-r]); a file does not replace a
    directory. *)
Definition cp_file_into (d : dir) (p : string * node) : dir :=
  match p.2 with
  | File x =>
      match d !! p.1 with
      | Some (Dir _) => d
      | _ => <[p.1 := File x]> d
      end
  | Dir _ => d
  end.

(** What [cp] leaves at the name of an entry [v] of the source, given
    what was there (for the statements about [cp]). *)
Definition copied (v : node) (o : option node) : option node :=
  match v with
  | File x => match o with Some (Dir _) => o | _ => Some (File x) end
  | Dir _ => o
  end.

Definition sh_cp_glob (src : option dir) (d : dir) : dir :=
  match src with
  | Some s => fold_left cp_file_into (visible_entries s) d
  | None => d
  end.

(** [mkdir NAME]: creates the directory unless the name is taken. *)
Definition sh_mkdir (name : string) (d : dir) : dir :=
  match d !! name with
  | None => <[name := Dir ∅]> d
  | Some _ => d
  end.

(** One step of [mv * NAME] when [NAME] is a directory: the pair is the
    working directory and the target; an entry moves unless it is the
    target itself or would replace an entry of the other kind or a
    directory that is not empty. *)
Definition mv_one (name : string) (acc : dir * dir) (p : string * node) : dir * dir :=
  let '(d, e) := acc in
  if String.eqb p.1 name then acc
  else
    let ok := match e !! p.1, p.2 with
              | None, _ => true
              | Some (File _), File _ => true
              | Some (Dir e2), Dir _ => bool_decide (e2 = ∅)
              | _, _ => false
              end in
    if ok then (delete p.1 d, <[p.1 := p.2]> e) else acc.

(** [mv * NAME].  The names that [*] expands to are handed to [mv] as
    they are, so that one that starts with [-] is read as an option; what
    [mv] does then is not modelled ([None]). *)
Definition sh_mv_all (name : string) (d : dir) : option dir :=
  let srcs := visible_entries d in
  if existsb (fun p => reads_as_option p.1) srcs then None
  else Some
    match d !! name with
    | Some (Dir e) =>
        let '(d', e') := fold_left (mv_one name) srcs (d, e) in
        <[name := Dir e']> d'
    | Some (File _) =>
        match srcs with
        | [(n, File x)] =>
            if String.eqb n name then d else <[name := File x]> (delete n d)
        | _ => d
        end
    | None =>
        match srcs with
        | [(n, x)] => <[name := x]> (delete n d)
        | _ => d
        end
    end.

(** [rm -Rf NAME]: the entry goes, whatever it is. *)
Definition sh_rm_rf (name : string) (d : dir) : dir := delete name d.

(** *** Statements as actions *)

(** What a statement does to the file system.
    - [Nop]: nothing, and it cannot raise (imports, magics, [ls]);
    - [Mkdir], [Chdir]: [os.mkdir], [os.chdir];
    - [Remove]: [rm -Rf NAME];
    - [Shell f]: a shell line that rewrites the working directory by [f],
      which may read the whole state ([None]: not modelled);
    - [Pure]: a library statement that writes no file and may raise;
    - [WriteIn path]: a library call that writes into the directory at
      [path], and may raise;
    - [Other]: anything else. *)
Inductive action :=
| Nop
| Mkdir (name : string)
| Chdir (path : string)
| Remove (name : string)
| Shell (f : state → dir → option dir)
| Pure
| WriteIn (path : string)
| Other.

Definition shell_action (line : string) : action :=
  match Str.words line with
  | "ls" :: _ => Nop
  | ["cp"; src; "."] =>
      match reverse (Str.split_on "/"%char src) with
      | "*" :: _ :: _ =>
          if reads_as_option src then Other
          else
            let srcdir := String.substring 0 (String.length src - 2) src in
            Shell (λ st d, Some (sh_cp_glob (source_dir st srcdir) d))
      | _ => Other
      end
  | ["mkdir"; name] =>
      if shell_name name then Shell (λ _ d, Some (sh_mkdir name d)) else Other
  | ["mv"; "*"; name] =>
      if shell_name name then Shell (λ _, sh_mv_all name) else Other
  | ["rm"; "-Rf"; name] =>
      if shell_name name then Remove name else Other
  | _ => Other
  end.

Definition uses_os (s : stmt) : bool :=
  existsb (fun c => Ops.name_is (callee_root c) ["os"]) (calls_s s).

(** The library calls of the notebook that write no file: constructors of
    inputs, input sets, handlers, jobs and validators, readers of files,
    accessors and the plot.  (From the libraries' documentation; their
    code is not in the repository.) *)
Definition pure_calls : list string :=
  ["get_structure"; "Poscar"; "Kpoints"; "automatic_gamma_density";
   "Potcar"; "Incar"; "MPRelaxSet"; "Vasprun"; "as_dict"; "from_prev_calc";
   "VaspErrorHandler"; "VaspJob"; "VasprunXMLValidator"; "Custodian";
   "get_band_structure"; "BSPlotter"; "show"].

(** A string that, read as a path, stays at or below the directory it is
    read in: it does not start at the root or at a home directory and has
    no [..] component. *)
Definition stays_below (x : string) : bool :=
  negb (Str.starts_with "/" x) && negb (Str.starts_with "~" x)
  && negb (Str.in_list ".." (Str.split_on "/"%char x)).

(** A name that the notebook imports from [custodian]. *)
Definition from_custodian (nb : notebook) (f : string) : bool :=
  match Ops.binding_of nb f with
  | Ops.Imported m =>
      String.eqb m "custodian" || Str.starts_with "custodian." m
  | _ => false
  end.

(** [x = [F()]]: the variable is bound once, to a one-element list holding
    [F], imported from [custodian], called with no argument. *)
Definition default_list (nb : notebook) (x f : string) : bool :=
  match Ops.assignments_of nb x with
  | [EList [ECall (EName g) [] []]] => String.eqb g f && from_custodian nb g
  | _ => false
  end.

(** [x = [VaspJob(vasp_cmd=["echo", "hello"])]]: the one job is
    [echo hello]. *)
Definition echo_job_list (nb : notebook) (x : string) : bool :=
  match Ops.assignments_of nb x with
  | [EList [ECall (EName g) [] [(kw, EList [EStr a; EStr b])]]] =>
      String.eqb g "VaspJob" && from_custodian nb g
      && String.eqb kw "vasp_cmd" && String.eqb a "echo"
      && String.eqb b "hello"
  | _ => false
  end.

(** [x = Custodian(h, j, v)], bound once and given nothing else (no
    [scratch_dir] and the like), where [h], [j] and [v] are the default
    handler, the [echo hello] job and the default validator.  Run, it
    works in the working directory: the output of the command, the logs
    and the backups are written there. *)
Definition runs_echo_job (nb : notebook) (x : string) : bool :=
  match Ops.assignments_of nb x with
  | [ECall (EName g) [EName h; EName j; EName v] []] =>
      String.eqb g "Custodian" && from_custodian nb g
      && default_list nb h "VaspErrorHandler"
      && echo_job_list nb j
      && default_list nb v "VasprunXMLValidator"
  | _ => false
  end.

(** A library statement: [X.write_input(path)] writes the input files into
    the directory [path]; [c.run()], for [c] as above, runs the job and
    writes in the working directory; a statement all of whose calls are in
    [pure_calls] writes nothing; nothing is known of any other, nor of a
    statement that holds a string which, as a path, leads out of the
    working directory. *)
Definition library_action (s : stmt) : action :=
  if negb (forallb stays_below (strings_s s)) then Other
  else
    match s with
    | SExpr (ECall (EAttr _ "write_input") [EStr path] []) => WriteIn path
    | SExpr (ECall (EAttr (EName x) "run") [] []) =>
        if runs_echo_job Nb.Si_bandstructure x then WriteIn "." else Other
    | SAssign _ _ | SExpr _ | SPrint _ =>
        if forallb (fun c => Ops.name_is (callee_name c) pure_calls) (calls_s s)
        then Pure else Other
    | _ => Other
    end.

Definition action_of (s : stmt) : action :=
  match s with
  | SImport _ | SFromImport _ _ | SMagic _ => Nop
  | SShell line => shell_action line
  | SExpr (ECall (EAttr (EName "os") "mkdir") [EStr name] []) =>
      if simple_name name then Mkdir name else Other
  | SExpr (ECall (EAttr (EName "os") "chdir") [EStr path] []) => Chdir path
  | _ => if uses_os s then Other else library_action s
  end.

(** The statements of the band-structure notebook, and its code cells with
    their position in the notebook. *)
Definition script : list stmt := nb_stmts Nb.Si_bandstructure.

Fixpoint code_cells_from (i : nat) (nb : notebook) : list (nat * list stmt) :=
  match nb with
  | [] => []
  | Markdown :: rest => code_cells_from (S i) rest
  | Code body :: rest => (i, body) :: code_cells_from (S i) rest
  end.

Definition code_cells : list (nat * list stmt) :=
  code_cells_from 0 Nb.Si_bandstructure.

(** What a library call does: what it writes, and whether it raises (after
    writing). *)
Record lib_effect := LibEffect { writes : dir → dir; raises : option string }.

(** How a statement ends: in a state, with or without an exception; or
    outside what is modelled. *)
Inductive step :=
| Went (st : state) (exn : option string)
| NoModel.

(** How a cell ends: in a state, with the exception that stopped it and
    the number of its statements that were not run; or outside what is
    modelled. *)
Inductive cell_run :=
| CellRan (st : state) (exn : option string) (skipped : nat)
| CellNoModel.

(** An exception in a run: the cell, the exception and the number of
    statements of the cell that it left out. *)
Record incident := Incident { in_cell : nat; exn_of : string; left_out : nat }.

Inductive report :=
| Finished (st : state) (log : list incident)
| Unmodelled.

Section Run.

(** The effect of a library call is not in the repository.  It is taken as
    any function of the statement, its position in the run and the state:
    the call writes what it will where its statement says, and raises or
    not. *)
Variable lib : nat → stmt → state → lib_effect.

Definition perform (k : nat) (s : stmt) (a : action) (st : state) : step :=
  match a with
  | Nop => Went st None
  | Mkdir name =>
      match get_dir (cwd st) (root st) with
      | None => Went st (Some "OSError: No such file or directory")
      | Some d =>
          match d !! name with
          | Some _ => Went st (Some "OSError: File exists")
          | None =>
              match at_path (cwd st) (insert name (Dir ∅)) (root st) with
              | Some r => Went (State r (cwd st)) None
              | None => NoModel
              end
          end
      end
  | Chdir path =>
      match walk (root st) (cwd st) path with
      | Some p => Went (State (root st) p) None
      | None => Went st (Some "OSError")
      end
  | Remove name =>
      match at_path (cwd st) (sh_rm_rf name) (root st) with
      | Some r => Went (State r (cwd st)) None
      | None => NoModel
      end
  | Shell f =>
      match get_dir (cwd st) (root st) with
      | Some d =>
          match f st d with
          | Some d' =>
              match at_path (cwd st) (λ _, d') (root st) with
              | Some r => Went (State r (cwd st)) None
              | None => NoModel
              end
          | None => NoModel
          end
      | None => NoModel
      end
  | Pure => Went st (raises (lib k s st))
  | WriteIn path =>
      match walk (root st) (cwd st) path with
      | Some p =>
          match at_path p (writes (lib k s st)) (root st) with
          | Some r => Went (State r (cwd st)) (raises (lib k s st))
          | None => NoModel
          end
      | None => NoModel
      end
  | Other => NoModel
  end.

(** *** Running everything at once

    Statements run in order, numbered from [k]; the run stops at the first
    exception. *)
Definition exec (k : nat) (s : stmt) (st : state) : outcome :=
  match perform k s (action_of s) st with
  | Went st' None => Done st'
  | Went _ (Some e) => Raised e
  | NoModel => Unsupported
  end.

Fixpoint run_from (k : nat) (ss : list stmt) (st : state) : outcome :=
  match ss with
  | [] => Done st
  | s :: rest => bind (exec k s st) (run_from (S k) rest)
  end.

(** A run of the band-structure notebook, every cell in order, that stops
    at the first exception. *)
Definition run (st : state) : outcome := run_from 0 script st.

(** *** Running cell by cell

    An exception ends the cell it occurs in; the next cell is run all the
    same, as when the cells are run by hand. *)
Fixpoint run_cell (k : nat) (ss : list stmt) (st : state) : cell_run :=
  match ss with
  | [] => CellRan st None 0
  | s :: rest =>
      match perform k s (action_of s) st with
      | Went st' None => run_cell (S k) rest st'
      | Went st' (Some e) => CellRan st' (Some e) (length rest)
      | NoModel => CellNoModel
      end
  end.

Fixpoint run_cells (k : nat) (cells : list (nat * list stmt)) (st : state)
    : report :=
  match cells with
  | [] => Finished st []
  | (i, body) :: rest =>
      match run_cell k body st with
      | CellRan st' e sk =>
          match run_cells (k + length body) rest st' with
          | Finished st'' log =>
              Finished st''
                match e with
                | Some x => Incident i x sk :: log
                | None => log
                end
          | Unmodelled => Unmodelled
          end
      | CellNoModel => Unmodelled
      end
  end.

(** Every cell of the notebook, in order. *)
Definition run_notebook (st : state) : report := run_cells 0 code_cells st.

(** The first [j] code cells. *)
Definition run_first (j : nat) (st : state) : report :=
  run_cells 0 (take j code_cells) st.

(** The first [j] code cells, then the first [m] statements of the next
    one. *)
Definition run_into (j m : nat) (st : state) : report :=
  run_cells 0 (take j code_cells
               ++ match code_cells !! j with
                  | Some (i, body) => [(i, take m body)]
                  | None => []
                  end) st.

End Run.

(** A run is complete when no statement was left out: every exception was
    raised by the last statement of its cell. *)
Definition complete (log : list incident) : Prop :=
  Forall (λ i, left_out i = 0) log.

(** The entry [name] of the directory at [p]. *)
Definition entry_at (p : list string) (name : string) (r : dir) : option node :=
  d ← get_dir p r; d !! name.

Definition work_dir : string := "Si_BandStructure".

(** *** Where a run stands with respect to its work directory

    [Outside]: nothing has been created (or everything has been removed
    again); [Created]: the work directory exists and the run is in its
    parent; [Inside]: the run is in the work directory. *)
Inductive phase := Outside | Created | Inside.

Definition phase_eqb (a b : phase) : bool :=
  match a, b with
  | Outside, Outside | Created, Created | Inside, Inside => true
  | _, _ => false
  end.

(** The steps that keep a run to its work directory: in it, shell lines
    and library calls that write in [.]; around it, the four statements
    that create, enter, leave and remove it. *)
Definition phase_step (ph : phase) (a : action) : option phase :=
  match ph, a with
  | _, Nop => Some ph
  | _, Pure => Some ph
  | Outside, Mkdir n => if String.eqb n work_dir then Some Created else None
  | Created, Chdir path => if String.eqb path work_dir then Some Inside else None
  | Created, Remove n => if String.eqb n work_dir then Some Outside else None
  | Inside, Shell _ => Some Inside
  | Inside, Remove _ => Some Inside
  | Inside, WriteIn path => if String.eqb path "." then Some Inside else None
  | Inside, Chdir path => if String.eqb path ".." then Some Created else None
  | _, _ => None
  end.

Fixpoint phase_run (ph : phase) (ss : list stmt) : option phase :=
  match ss with
  | [] => Some ph
  | s :: rest => ph' ← phase_step ph (action_of s); phase_run ph' rest
  end.

(** A cell that stays in its phase at every statement. *)
Definition phase_const (ph : phase) (ss : list stmt) : bool :=
  forallb (fun s => match phase_step ph (action_of s) with
                    | Some ph' => phase_eqb ph' ph
                    | None => false
                    end) ss.

(** A cell without library statements. *)
Definition no_library (ss : list stmt) : bool :=
  forallb (fun s => match action_of s with
                    | Nop | Mkdir _ | Chdir _ | Remove _ | Shell _ => true
                    | _ => false
                    end) ss.

Definition has_mkdir (ss : list stmt) : bool :=
  existsb (fun s => match action_of s with Mkdir _ => true | _ => false end) ss.

(** The phase after a list of cells, each of which either stays in its
    phase or has no library statement. *)
Fixpoint cells_phase (ph : phase) (cells : list (nat * list stmt)) : option phase :=
  match cells with
  | [] => Some ph
  | (_, body) :: rest =>
      if phase_const ph body || no_library body
      then ph' ← phase_run ph body; cells_phase ph' rest
      else None
  end.

(** The cells that call [os.mkdir]. *)
Definition mkdir_cells (cells : list (nat * list stmt)) : list nat :=
  map fst (List.filter (fun c => has_mkdir c.2) cells).

(** The states a phase stands for, for a run started in [st0]. *)
Definition in_phase (st0 : state) (ph : phase) (st : state) : Prop :=
  match ph with
  | Outside => st = st0
  | Created =>
      cwd st = cwd st0
      ∧ ∃ d0 e, get_dir (cwd st0) (root st0) = Some d0
                ∧ d0 !! work_dir = None
                ∧ at_path (cwd st0) (insert work_dir (Dir e)) (root st0)
                  = Some (root st)
  | Inside =>
      cwd st = cwd st0 ++ [work_dir]
      ∧ ∃ d0 e, get_dir (cwd st0) (root st0) = Some d0
                ∧ d0 !! work_dir = None
                ∧ at_path (cwd st0) (insert work_dir (Dir e)) (root st0)
                  = Some (root st)
  end.

(** The tree is the initial one, but for the content of the work
    directory. *)
Definition only_work_dir_differs (st0 st : state) : Prop :=
  root st = root st0
  ∨ ∃ e, at_path (cwd st0) (insert work_dir (Dir e)) (root st0)
         = Some (root st).

(** The tree of [st'] is that of [st] with the working directory of [st]
    rewritten. *)
Definition only_dir_differs (st st' : state) : Prop :=
  ∃ f, at_path (cwd st) f (root st) = Some (root st').

(** *** A small tree to run the notebook on

    A directory [work] with the notebook and the [outputs] that the
    notebook copies from.  [write_input] writes two input files; [run]
    writes a log and raises when there is no [vasprun.xml] to validate. *)
Definition demo_lib (k : nat) (s : stmt) (st : state) : lib_effect :=
  match s with
  | SExpr (ECall (EAttr _ "write_input") _ _) =>
      LibEffect (λ d, <["INCAR" := File "incar"]> (<["POSCAR" := File "poscar"]> d))
                None
  | SExpr (ECall (EAttr _ "run") _ _) =>
      LibEffect (λ d, <["custodian.json" := File "log"]> d)
                match source_dir st "." with
                | Some d =>
                    match d !! "vasprun.xml" with
                    | Some _ => None
                    | None => Some "RuntimeError"
                    end
                | None => Some "RuntimeError"
                end
  | _ => LibEffect id None
  end.

Definition demo_outputs : dir :=
  {[ "Si_Opt" := Dir {[ "vasprun.xml" := File "opt"; "sub" := Dir ∅ ]};
     "Si_Static" := Dir {[ "vasprun.xml" := File "static";
                           "OUTCAR" := File "outcar" ]};
     "Si_NonSCF" := Dir {[ "vasprun.xml" := File "nonscf" ]} ]}.

Definition demo_state : state :=
  State {[ "work" := Dir {[ "outputs" := Dir demo_outputs;
                            "Si_bandstructure.ipynb" := File "notebook" ]} ]}
        ["work"].


(** A work directory after some cells, with a hidden file. *)
Definition demo_work : dir :=
  {[ "INCAR" := File "incar"; "vasprun.xml" := File "opt";
     "sub" := Dir {[ "x" := File "y" ]}; ".lock" := File "pid" ]}.

(** The same tree with the work directory already there. *)
Definition demo_state_taken : state :=
  State {[ "work" := Dir {[ "outputs" := Dir demo_outputs;
                            "Si_BandStructure" := Dir ∅ ]} ]}
        ["work"].

(** The small tree in the middle of a run: the work directory is there,
    empty, and the run is in it. *)
Definition demo_state_inside : state :=
  State {[ "work" := Dir {[ "outputs" := Dir demo_outputs;
                            "Si_bandstructure.ipynb" := File "notebook";
                            "Si_BandStructure" := Dir ∅ ]} ]}
        ["work"; "Si_BandStructure"].

End FS.

(** ** The loops of the core notebook

    The five cells of [pymatgen_core.ipynb] that are not straight-line
    code, as functions of what the library hands them.  Library objects
    are seen through the attributes and methods the cells use; library
    functions are parameters.  A Python exception is a [Raise]. *)

Module Cells.

Inductive result (A : Type) :=
| Ok (a : A)
| Raise (exn : string).
Arguments Ok {A} a.
Arguments Raise {A} exn.

Definition rbind {A B} (r : result A) (k : A → result B) : result B :=
  match r with
  | Ok a => k a
  | Raise e => Raise e
  end.

Notation "x <- r ;; k" := (rbind r (λ x, k))
  (at level 100, r at next level, right associativity, only parsing).

(** [l[i]] for a list (or a structure, seen as the list of its sites). *)
Definition index {A} (l : list A) (i : nat) : result A :=
  match l !! i with
  | Some x => Ok x
  | None => Raise "IndexError"
  end.

(** [d[k]] for a dict. *)
Definition getitem {V} (d : gmap string V) (k : string) : result V :=
  match d !! k with
  | Some v => Ok v
  | None => Raise "KeyError"
  end.

(** [range(n)] and [enumerate(l)] of Python 2: lists. *)
Definition range (n : nat) : list nat := seq 0 n.

Definition enumerate {A} (l : list A) : list (nat * A) :=
  combine (range (length l)) l.

Section Sites.

(** A site of a structure, its [species_string], and the site that
    [structure[n] = species] puts in its place. *)
Variable site : Type.
Variable species_string : site → string.
Variable with_species : site → string → site.

(** [structure[n] = species]. *)
Definition set_species (structure : list site) (n : nat) (species : string)
    : result (list site) :=
  s <- index structure n ;;
  Ok (<[n := with_species s species]> structure).

(** The flags that cell 10 gives a site, and the site that cell 12 leaves
    in the place of a site (for the statements about their loops). *)
Definition sd_flags (s : site) : list bool :=
  if String.eqb (species_string s) "Nb"
  then [false; false; false] else [true; true; true].

Definition fluorinated (s : site) : site :=
  if String.eqb (species_string s) "O" then with_species s "F" else s.

(** Cell 10, the body of
    [for n in range(big_structure.num_sites): ...]: one more entry of
    [sd], all [False] for an Nb site and all [True] otherwise. *)
Definition sd_step (big_structure : list site)
    (acc : result (list (list bool))) (n : nat) : result (list (list bool)) :=
  sd <- acc ;;
  s <- index big_structure n ;;
  if String.eqb (species_string s) "Nb"
  then Ok (sd ++ [[false; false; false]])
  else Ok (sd ++ [[true; true; true]]).

Definition selective_dynamics (big_structure : list site)
    : result (list (list bool)) :=
  fold_left (sd_step big_structure) (range (length big_structure)) (Ok []).

(** Cell 10, what it does to [big_structure], [sd] and [names]: site 0 is
    set to V and back to Nb, [sd] and [names] start empty, the loop fills
    [sd].  (The calls on [bcc_fe] in between touch another object.) *)
Definition cell10 (big_structure : list site)
    : result (list site * list (list bool) * list string) :=
  b1 <- set_species big_structure 0 "V" ;;
  b2 <- set_species b1 0 "Nb" ;;
  let names : list string := [] in
  sd <- selective_dynamics b2 ;;
  Ok (b2, sd, names).

(** Cell 12, the body of [for n in range(structure.num_sites): ...]: an O
    site becomes an F site, in place. *)
Definition replace_step (acc : result (list site)) (n : nat)
    : result (list site) :=
  structure <- acc ;;
  s <- index structure n ;;
  if String.eqb (species_string s) "O"
  then set_species structure n "F"
  else Ok structure.

Definition replace_oxygen (structure : list site) : result (list site) :=
  fold_left replace_step (range (length structure)) (Ok structure).

(** Cell 12 up to the end of its loop: the first structure that the query
    returns, with its oxygen replaced. *)
Definition exercise1 (found : list (list site)) : result (list site) :=
  structure <- index found 0 ;;
  replace_oxygen structure.

End Sites.

Section Matching.

Variable structure : Type.
(** [sm.fit_anonymous]. *)
Variable fit_anonymous : structure → structure → bool.

(** Cell 21, [[q["structure"] for q in query]]. *)
Fixpoint structures_of (query : list (gmap string structure))
    : result (list structure) :=
  match query with
  | [] => Ok []
  | q :: rest =>
      s <- getitem q "structure" ;;
      ss <- structures_of rest ;;
      Ok (s :: ss)
  end.

(** Cell 21, the body of [for structure in structures: ...]. *)
Definition match_step (wo3 : structure) (matches : list structure)
    (s : structure) : list structure :=
  if fit_anonymous s wo3 then matches ++ [s] else matches.

Definition find_matches (structures : list structure) (wo3 : structure)
    : list structure :=
  fold_left (match_step wo3) structures [].

Definition cell21 (query : list (gmap string structure)) (wo3 : structure)
    : result (list structure) :=
  structures <- structures_of query ;;
  Ok (find_matches structures wo3).

End Matching.

Section Diffraction.

Variable structure : Type.
Variable peak : Type.
(** [xrdc.get_xrd_data(_, two_theta_range=[10,80])]. *)
Variable get_xrd_data : structure → list peak.

(** Cell 26, the body of the loop on the pair of [data] and what has been
    printed so far. *)
Definition lis_step (st : list peak * list structure) (p : nat * structure)
    : list peak * list structure :=
  let data := get_xrd_data p.2 in
  if length data =? 8 then (data, st.2 ++ [p.2]) else (data, st.2).

(** Cell 26: the final [data] and the structures printed. *)
Definition cell26 (lis_structures : list structure)
    : result (list peak * list structure) :=
  s0 <- index lis_structures 0 ;;
  let data := get_xrd_data s0 in
  Ok (fold_left lis_step (enumerate lis_structures) (data, [])).

End Diffraction.

Section Surfaces.

Variable slab : Type.
Variable miller : Type.
Variable miller_index : slab → miller.

(** Cell 34 from [first_slab = slabs[0]] on: the value of
    [first_slab.miller_index] and the lines printed by the loop. *)
Definition cell34 (slabs : list slab) : result (miller * list miller) :=
  first_slab <- index slabs 0 ;;
  Ok (miller_index first_slab,
      fold_left (λ out s, out ++ [miller_index s]) slabs []).

End Surfaces.

(** *** Concrete sites and data to run the cells on *)

Definition demo_site : Type := string * string.
Definition demo_species (s : demo_site) : string := s.1.
Definition demo_with_species (s : demo_site) (sp : string) : demo_site :=
  (sp, s.2).

Definition demo_oxide : list demo_site :=
  [("Ba", "0 0 0"); ("Ni", "0.5 0.5 0.5"); ("O", "0.5 0 0");
   ("O", "0 0.5 0"); ("O", "0 0 0.5")].

Definition demo_query : list (gmap string nat) :=
  [ {[ "structure" := 3 ]}; {[ "structure" := 8 ]}; {[ "structure" := 5 ]} ].

End Cells.

(** * Properties *)

(** ** Generic facts *)

Module UtilFacts.

Lemma in_list_In x l : Str.in_list x l = true ↔ In x l.
Proof.
  unfold Str.in_list. rewrite existsb_exists. split.
  - intros (y & Hy & Heq). apply String.eqb_eq in Heq. by subst.
  - intros Hx. exists x. split; [done | apply String.eqb_refl].
Qed.

Lemma not_in_list_In x l : Str.in_list x l = false → ¬ In x l.
Proof.
  intros Hf Hin. apply in_list_In in Hin. congruence.
Qed.

Lemma positions_from_lower {A} (P : A → bool) l i n :
  In n (Util.positions_from P l i) → i ≤ n.
Proof.
  revert i. induction l as [|x l IH]; intros i; simpl; [done |].
  destruct (P x); simpl.
  - intros [<- | Hn]; [lia | apply IH in Hn; lia].
  - intros Hn. apply IH in Hn. lia.
Qed.

(** [positions_from] lists exactly the places where [P] holds. *)
Lemma positions_from_spec {A} (P : A → bool) l i n :
  In n (Util.positions_from P l i)
  ↔ i ≤ n ∧ ∃ x, l !! (n - i) = Some x ∧ P x = true.
Proof.
  revert i. induction l as [|x l IH]; intros i; simpl.
  - split; [done | intros (_ & y & Hy & _); done].
  - assert (Hstep : ∀ m, S i ≤ m → (x :: l) !! (m - i) = l !! (m - S i)).
    { intros m Hm. replace (m - i) with (S (m - S i)) by lia. done. }
    destruct (P x) eqn:HP; simpl; rewrite IH; split.
    + intros [<- | (Hle & y & Hy & HPy)].
      * split; [lia |]. exists x. rewrite Nat.sub_diag. done.
      * split; [lia |]. exists y. by rewrite Hstep.
    + intros (Hle & y & Hy & HPy).
      destruct (decide (n = i)) as [-> | Hne]; [by left | right].
      split; [lia |]. exists y. rewrite <- Hstep by lia. done.
    + intros (Hle & y & Hy & HPy). split; [lia |]. exists y. by rewrite Hstep.
    + intros (Hle & y & Hy & HPy).
      destruct (decide (n = i)) as [-> | Hne].
      * rewrite Nat.sub_diag in Hy. simpl in Hy. congruence.
      * split; [lia |]. exists y. rewrite <- Hstep by lia. done.
Qed.

Lemma positions_spec {A} (P : A → bool) l n :
  In n (Util.positions P l) ↔ ∃ x, l !! n = Some x ∧ P x = true.
Proof.
  unfold Util.positions. rewrite positions_from_spec, Nat.sub_0_r.
  split; [by intros [_ H] | intros H; split; [lia | done]].
Qed.

End UtilFacts.

(** ** The submit script *)

Module SubmitProps.
Import Submit UtilFacts.

Lemma control_freeb_sound l : control_freeb l = true → control_free l.
Proof.
  unfold control_freeb, control_free. destruct (classify l); try done.
  rewrite andb_true_iff, !forallb_forall. intros [Hw Hc]. split.
  - intros w Hin. specialize (Hw w Hin).
    apply negb_true_iff in Hw. by apply not_in_list_In.
  - intros c Hin. specialize (Hc c Hin). by apply negb_true_iff in Hc.
Qed.

Lemma no_process_controlb_sound l :
  no_process_controlb l = true → no_process_control l.
Proof.
  unfold no_process_controlb, no_process_control.
  destruct (classify l); try done.
  rewrite andb_true_iff, forallb_forall, negb_true_iff. intros [Hw Hc].
  split; [| done]. intros w Hin. specialize (Hw w Hin).
  apply negb_true_iff in Hw. by apply not_in_list_In.
Qed.

(** The line kinds of the script: a shebang, eleven directives, a blank
    line and two commands. *)
Lemma submit_script_lines :
  map classify submit_script
  = [ Shebang "/bin/bash";
      Directive "-q" ["glean"];
      Directive "-N" ["job"];
      Directive "-l" ["nodes=1:ppn=24:haswell"];
      Directive "-l" ["walltime=24:00:00"];
      Directive "-o" ["run_vasp.out"];
      Directive "-e" ["job.err"];
      Directive "-V" [];
      Directive "-M" ["ongsp@ucsd.edu"];
      Directive "-m" ["a"];
      Directive "-A" ["ong-group"];
      Directive "-d" ["/home/ongsp/Li2O/Au"];
      Blank;
      Command ["module"; "load"; "vasp"; "scipy/2.7"];
      Command ["run_vasp"; "-c";
               "mpirun -machinefile $PBS_NODEFILE -np 24 /opt/vasp/5.4.1/bin/vasp";
               "-z"; "-s"; "/oasis/tscc/scratch/ongsp"; "relax"; "relax"] ].
Proof. vm_compute. reflexivity. Qed.

Lemma job_name_not_listed : In JobName (declared submit_script) ∧ ¬ In JobName spec_listed.
Proof.
  split; [vm_compute; tauto |].
  intros H. simpl in H. intuition discriminate.
Qed.

Lemma two_command_lines : length (commands submit_script) = 2.
Proof. vm_compute. reflexivity. Qed.

(** C1, as stated, fails on the script: it declares a job name, which is
    not among the parameters the specification lists, and it has two
    command lines, not one. *)
Lemma submit_script_not_exactly_listed :
  ¬ (declares_exactly submit_script spec_listed
     ∧ length (commands submit_script) = 1).
Proof.
  intros [Hex Hone].
  destruct job_name_not_listed as [Hin Hnot].
  apply Hnot. exact (proj1 (Hex JobName) Hin).
Qed.

(** C1 (amended): the script declares the listed parameters (queue, nodes
    and cores, walltime, output, error, mail policy, working directory)
    and, besides them, a job name, the export of the environment, a mail
    recipient and an account, all as fixed directives; beyond them it has
    two command lines, [module load vasp scipy/2.7] and one [run_vasp]
    invocation whose [-c] command starts a single binary under [mpirun]. *)
Theorem submit_script_contract :
  declares_exactly submit_script
    (spec_listed ++ [JobName; ExportEnv; MailTo; Account])
  ∧ Forall (λ d, fixed_directive d = true) (directives submit_script)
  ∧ (∃ run_cmd,
       commands submit_script = [["module"; "load"; "vasp"; "scipy/2.7"]; run_cmd]
       ∧ head run_cmd = Some "run_vasp"
       ∧ ∃ launch,
           launch_lines submit_script = [launch]
           ∧ launch_line run_cmd = Some launch
           ∧ launch_parts launch
             = Some ("mpirun", ["/opt/vasp/5.4.1/bin/vasp"])).
Proof.
  split; [| split].
  - intros p. split.
    + intros H. vm_compute in H. simpl. tauto.
    + intros H. simpl in H. vm_compute. tauto.
  - apply List.Forall_forall. apply forallb_forall. vm_compute. reflexivity.
  - eexists. split; [vm_compute; reflexivity |].
    split; [reflexivity |].
    eexists. split; [vm_compute; reflexivity |].
    split; vm_compute; reflexivity.
Qed.

Lemma script_lines_control_free : Forall control_free submit_script.
Proof.
  apply List.Forall_forall. intros l Hl. apply control_freeb_sound.
  revert l Hl. apply forallb_forall. vm_compute. reflexivity.
Qed.




(** C7: no line of the script backgrounds a process or runs a command that
    waits for, signals or traps: the script has no process control of its
    own. *)
Theorem submit_script_no_process_control :
  Forall no_process_control submit_script.
Proof.
  apply List.Forall_forall. intros l Hl. apply no_process_controlb_sound.
  revert l Hl. apply forallb_forall. vm_compute. reflexivity.
Qed.

(** C8: the process count on the launch line is the product of the nodes
    and the processors per node that the script requests: 24 = 1 * 24. *)
Theorem launched_np_is_allocation :
  ∃ nodes ppn np,
    requested_nodes submit_script = Some nodes
    ∧ requested_ppn submit_script = Some ppn
    ∧ launched_np submit_script = Some np
    ∧ nodes = 1 ∧ ppn = 24 ∧ np = nodes * ppn.
Proof.
  exists 1, 24, 24. repeat split; vm_compute; reflexivity.
Qed.

End SubmitProps.

(** ** The notebooks *)

Module NotebookProps.
Import Py Nb Ops UtilFacts.

(** Nothing in either notebook is a function, a class or a named lambda. *)
Lemma repo_defines_nothing : repo_defined = [].
Proof. vm_compute. reflexivity. Qed.

Lemma repo_no_while_or_try :
  Forall (λ s, has_while_or_try s = false) repo_stmts.
Proof.
  apply List.Forall_forall. intros s Hs.
  apply negb_true_iff. revert s Hs. apply forallb_forall.
  vm_compute. reflexivity.
Qed.

(** [ElasticTensor], through which the tensor is fitted, is never imported
    by the notebook that uses it. *)
Lemma ElasticTensor_not_imported :
  imported_from pymatgen_core "ElasticTensor" = None
  ∧ In (ECall (EAttr (EName "ElasticTensor") "from_voigt")
          [ESubscript (EName "data") (ENum "1")] [])
       (nb_calls pymatgen_core).
Proof. split; [vm_compute; reflexivity | vm_compute; tauto]. Qed.

Lemma called_by_name name :
  Str.in_list name (omap callee_name repo_calls) = true →
  ∃ c, In c repo_calls ∧ callee_name c = Some name.
Proof.
  intros H. apply in_list_In, list_elem_of_In, list_elem_of_omap in H.
  destruct H as (c & Hc & Hn). exists c. split; [| done].
  by apply list_elem_of_In.
Qed.

(** Whether some notebook imports [name] from [pymatgen] or [custodian]. *)
Lemma imported_externally name :
  existsb (λ nb, match imported_from nb name with
                 | Some m => external_module m
                 | None => false
                 end) notebooks = true →
  ∃ nb m, In nb notebooks ∧ imported_from nb name = Some m
          ∧ external_module m = true.
Proof.
  rewrite existsb_exists. intros (nb & Hnb & H).
  destruct (imported_from nb name) as [m|] eqn:Hm; [| done].
  exists nb, m. done.
Qed.

Lemma no_jobs_in_compounds : map jobs_in_compounds notebooks = [[]; []].
Proof. vm_compute. reflexivity. Qed.

Lemma Si_no_compound : compound_stmts Si_bandstructure = [].
Proof. vm_compute. reflexivity. Qed.

(** C2: each operation the specification names (symmetry detection,
    structure matching, XRD patterns, tensor fitting, slab generation, job
    retry) is reached by a call to a name that the repository does not
    define; every name at the root of a call is imported from a library,
    a Python builtin, or a variable, but for [ElasticTensor], which the
    core notebook neither imports nor defines nor assigns and through
    which alone [et], the receiver of [fit_to_structure], is bound; five
    of the six entry points are imported from [pymatgen] or [custodian];
    the repository defines no function, class or lambda and has no [while]
    loop or [try] block; its only compound statements are the five [for]
    loops written out below (each a pass over a list the library returned,
    with at most one test per element) and its only comprehension is
    [[q["structure"] for q in query]]; no statement inside a loop or a
    branch mentions the job framework or runs a shell command; every line
    of the submit script is free of control flow.  So no scheduler, parser
    or retry loop is written here. *)
Theorem operations_delegated :
  Forall (λ name, (∃ c, In c repo_calls ∧ callee_name c = Some name)
                  ∧ ¬ In name repo_defined) delegated_entry_points
  ∧ Forall (λ nb,
      Forall (λ x, match binding_of nb x with
                   | Imported m => library_module m = true
                   | Builtin | Assigned => True
                   | Free => x = "ElasticTensor"
                   end) (callee_roots nb)) notebooks
  ∧ Forall (λ name, ∃ nb m, In nb notebooks ∧ imported_from nb name = Some m
                            ∧ external_module m = true)
      ["SpacegroupAnalyzer"; "StructureMatcher"; "XRDCalculator";
       "generate_all_slabs"; "Custodian"]
  ∧ (assignments_of pymatgen_core "et"
     = [meth (EName "ElasticTensor") "from_voigt"
          [ESubscript (EName "data") (ENum "1")]]
     ∧ binding_of pymatgen_core "ElasticTensor" = Free)
  ∧ repo_defined = []
  ∧ Forall (λ s, has_while_or_try s = false) repo_stmts
  ∧ (compound_stmts pymatgen_core
     = [ SFor (EName "n")
        (call (EName "range") [EAttr (EName "big_structure") "num_sites"])
        [ SIf (ECompare
                 (EAttr (ESubscript (EName "big_structure") (EName "n"))
                    "species_string")
                 "==" (EStr "Nb"))
            [ SExpr (meth (EName "sd") "append"
                       [EList [EBool false; EBool false; EBool false]]) ]
            [ SExpr (meth (EName "sd") "append"
                       [EList [EBool true; EBool true; EBool true]]) ] ];
      SFor (EName "n")
        (call (EName "range") [EAttr (EName "structure") "num_sites"])
        [ SIf (ECompare
                 (EAttr (ESubscript (EName "structure") (EName "n"))
                    "species_string")
                 "==" (EStr "O"))
            [ SAssign (ESubscript (EName "structure") (EName "n"))
                (EStr "F") ]
            [] ];
      SFor (EName "structure") (EName "structures")
        [ SIf (meth (EName "sm") "fit_anonymous"
                 [EName "structure"; EName "wo3"])
            [ SExpr (meth (EName "matches") "append" [EName "structure"]) ]
            [] ];
      SFor (ETuple [EName "n"; EName "lis_structure"])
        (call (EName "enumerate") [EName "lis_structures"])
        [ SAssign (EName "data")
            (methk (EName "xrdc") "get_xrd_data" [EName "lis_structure"]
               [("two_theta_range", nums ["10"; "80"])]);
          SIf (ECompare (call (EName "len") [EName "data"]) "==" (ENum "8"))
            [ SPrint [EName "lis_structure"] ]
            [] ];
      SFor (EName "slab") (EName "slabs")
        [ SPrint [EAttr (EName "slab") "miller_index"] ] ]
     ∧ compound_stmts Si_bandstructure = [])
  ∧ map comprehensions notebooks
    = [[EListComp (ESubscript (EName "q") (EStr "structure"))
          (EName "q") (EName "query")]; []]
  ∧ map jobs_in_compounds notebooks = [[]; []]
  ∧ Forall Submit.control_free Submit.submit_script.
Proof.
  split; [| split; [| split; [| split; [| split; [| split;
    [| split; [| split; [| split]]]]]]]].
  - rewrite repo_defines_nothing. apply List.Forall_forall.
    intros name Hin. split; [| by intros []].
    apply called_by_name. revert name Hin. apply forallb_forall.
    vm_compute. reflexivity.
  - unfold notebooks.
    apply List.Forall_cons; [| apply List.Forall_cons; [| apply List.Forall_nil]].
    + apply List.Forall_forall. intros x Hx.
      assert (Hb : (match binding_of pymatgen_core x with
                    | Imported m => library_module m
                    | Builtin | Assigned => true
                    | Free => String.eqb x "ElasticTensor"
                    end) = true).
      { revert x Hx. apply forallb_forall. vm_compute. reflexivity. }
      destruct (binding_of pymatgen_core x); try done.
      by apply String.eqb_eq.
    + apply List.Forall_forall. intros x Hx.
      assert (Hb : (match binding_of Si_bandstructure x with
                    | Imported m => library_module m
                    | Builtin | Assigned => true
                    | Free => String.eqb x "ElasticTensor"
                    end) = true).
      { revert x Hx. apply forallb_forall. vm_compute. reflexivity. }
      destruct (binding_of Si_bandstructure x); try done.
      by apply String.eqb_eq.
  - apply List.Forall_forall. intros name Hin.
    apply imported_externally. revert name Hin. apply forallb_forall.
    vm_compute. reflexivity.
  - split; vm_compute; reflexivity.
  - apply repo_defines_nothing.
  - apply repo_no_while_or_try.
  - split; [vm_compute; reflexivity | apply Si_no_compound].
  - vm_compute. reflexivity.
  - apply no_jobs_in_compounds.
  - apply SubmitProps.script_lines_control_free.
Qed.

(** *** Order of the operations *)

Lemma occurrences_core :
  map (λ op, occurrences op pymatgen_core) stated_order
  = [ [0; 1; 2; 3; 4; 6; 8; 11; 66];
      [5; 7; 9; 10; 12; 62; 67];
      [32; 33; 34; 35; 36];
      [37; 38; 41; 42];
      [44; 45; 47; 49];
      [64];
      [68] ].
Proof. vm_compute. reflexivity. Qed.

(** C4, as stated, fails on the notebook: the last cell builds a lattice
    (call 66) after the symmetry analyzer has been called (call 32). *)
Lemma core_not_in_stated_order : ¬ in_stated_order pymatgen_core.
Proof.
  intros [_ Hord].
  apply (Hord ConstructLattice SymmetryAnalyzer) with (i := 66) (j := 32).
  - exists 0, 2. split; [lia | split; reflexivity].
  - vm_compute. tauto.
  - vm_compute. tauto.
  - lia.
Qed.

(** C4 (amended): each of the seven operations occurs in the core
    notebook, and their first occurrences come in the stated order:
    lattice, structure, symmetry analyzer, structure matcher, diffraction
    calculator, tensor fitting, surface generation. *)
Theorem core_first_occurrences_in_order :
  ∃ ps, map (λ op, first_occurrence op pymatgen_core) stated_order
        = map Some ps
        ∧ StronglySorted lt ps.
Proof.
  exists [0; 5; 32; 37; 44; 64; 68]. split; [vm_compute; reflexivity |].
  repeat first [ apply SSorted_nil | apply SSorted_cons
               | apply List.Forall_nil | apply List.Forall_cons | lia ].
Qed.

(** *** The job-management framework *)

Lemma components_of_notebooks :
  components pymatgen_core = []
  ∧ components Si_bandstructure
    = [ (Handler, ECall (EName "VaspErrorHandler") [] []);
        (Job, ECall (EName "VaspJob") []
                [("vasp_cmd", EList [EStr "echo"; EStr "hello"])]);
        (Validator, ECall (EName "VasprunXMLValidator") [] []) ].
Proof. split; vm_compute; reflexivity. Qed.

(** C5, as stated, fails on the notebook: the job is built with an
    explicit command, [VaspJob(vasp_cmd=["echo","hello"])]. *)
Lemma job_not_default_constructed : ¬ components_default notebooks.
Proof.
  intros H.
  destruct (H Si_bandstructure Job
              (ECall (EName "VaspJob") []
                 [("vasp_cmd", EList [EStr "echo"; EStr "hello"])]))
    as [_ Hkw].
  - simpl. tauto.
  - destruct components_of_notebooks as [_ ->]. simpl. tauto.
  - discriminate Hkw.
Qed.

Lemma Si_straight_line : Forall (λ c, straight_line c = true) Si_bandstructure.
Proof.
  apply List.Forall_forall. apply forallb_forall. vm_compute. reflexivity.
Qed.

(** C5 (amended): the error handler and the validator are built with no
    argument and the job with the single keyword argument
    [vasp_cmd=["echo","hello"]]; these three are the only framework
    components in the repository.  The statements that mention the
    framework at all are the ten written out below: four imports, the
    three one-element lists, [Custodian(handlers, jobs, validators)] with
    these three arguments and no other (no policy argument), and [c.run()]
    twice, without arguments.  They stand at the top level of a notebook
    all of whose cells are straight-line code; no statement inside a loop
    or a branch, in either notebook, mentions the framework or runs a
    shell command; the repository defines no class or function and has no
    [try] block or [while] loop; the commands of the submit script are
    [module load] and one [run_vasp] line with the options [-c], [-z] and
    [-s] and the job names [relax relax]. *)
Theorem framework_components :
  Forall (λ nb, Forall (λ kc, match kc.1 with
                              | Handler | Validator => default_constructed kc.2
                              | Job =>
                                  call_args kc.2 = []
                                  ∧ call_kwargs kc.2
                                    = [("vasp_cmd", EList [EStr "echo"; EStr "hello"])]
                              end) (components nb)) notebooks
  ∧ map (λ nb, map fst (components nb)) notebooks
    = [[]; [Handler; Job; Validator]]
  ∧ (framework_stmts pymatgen_core = []
     ∧ framework_stmts Si_bandstructure
       = [ SFromImport "custodian" ["Custodian"];
           SFromImport "custodian.vasp.handlers" ["VaspErrorHandler"];
           SFromImport "custodian.vasp.jobs" ["VaspJob"];
           SFromImport "custodian.vasp.validators" ["VasprunXMLValidator"];
           SAssign (EName "handlers")
             (EList [ECall (EName "VaspErrorHandler") [] []]);
           SAssign (EName "jobs")
             (EList [ECall (EName "VaspJob") []
                       [("vasp_cmd", EList [EStr "echo"; EStr "hello"])]]);
           SAssign (EName "validators")
             (EList [ECall (EName "VasprunXMLValidator") [] []]);
           SAssign (EName "c")
             (ECall (EName "Custodian")
                [EName "handlers"; EName "jobs"; EName "validators"] []);
           SExpr (ECall (EAttr (EName "c") "run") [] []);
           SExpr (ECall (EAttr (EName "c") "run") [] []) ])
  ∧ Forall (λ c, straight_line c = true) Si_bandstructure
  ∧ map jobs_in_compounds notebooks = [[]; []]
  ∧ repo_defined = []
  ∧ Forall (λ s, has_while_or_try s = false) repo_stmts
  ∧ Submit.commands Submit.submit_script
    = [ ["module"; "load"; "vasp"; "scipy/2.7"];
        ["run_vasp"; "-c";
         "mpirun -machinefile $PBS_NODEFILE -np 24 /opt/vasp/5.4.1/bin/vasp";
         "-z"; "-s"; "/oasis/tscc/scratch/ongsp"; "relax"; "relax"] ].
Proof.
  destruct components_of_notebooks as [Hc Hs].
  split; [| split; [| split; [| split; [| split; [| split; [| split]]]]]].
  - unfold notebooks.
    apply List.Forall_cons; [| apply List.Forall_cons; [| apply List.Forall_nil]].
    + rewrite Hc. apply List.Forall_nil.
    + rewrite Hs. unfold default_constructed.
      repeat apply List.Forall_cons; try apply List.Forall_nil;
        simpl; split; reflexivity.
  - unfold notebooks. cbn [map]. rewrite Hc, Hs. reflexivity.
  - split; vm_compute; reflexivity.
  - apply Si_straight_line.
  - apply no_jobs_in_compounds.
  - apply repo_defines_nothing.
  - apply repo_no_while_or_try.
  - vm_compute. reflexivity.
Qed.

(** *** Control flow in the cells *)

Lemma branching_cells_core : branching_cells pymatgen_core = [10; 12; 21; 26; 34].
Proof. vm_compute. reflexivity. Qed.

Lemma branching_cells_Si : branching_cells Si_bandstructure = [].
Proof. vm_compute. reflexivity. Qed.

(** C6, as stated, fails on the core notebook: its cell 10 (the
    [selective_dynamics] loop) holds a [for] with an [if] inside. *)
Lemma core_cell_not_straight_line : ¬ all_straight_line notebooks.
Proof.
  intros H.
  assert (Hc : ∃ c, pymatgen_core !! 10 = Some c ∧ straight_line c = false)
    by (eexists; split; [reflexivity | vm_compute; reflexivity]).
  destruct Hc as (c & Hc & Hf).
  rewrite (H pymatgen_core c) in Hf; [discriminate | simpl; tauto |].
  apply list_elem_of_In. by eapply list_elem_of_lookup_2.
Qed.

(** C6 (amended): every cell of the band-structure notebook is
    straight-line code; in the core notebook every cell is straight-line
    but cells 10, 12, 21, 26 and 34, each of which holds a [for] loop
    (with an [if] in all but the last); no cell of either notebook defines
    a function or a class or has a [while] loop or a [try] block. *)
Theorem cells_control_flow :
  Forall (λ c, straight_line c = true) Si_bandstructure
  ∧ (∀ i c, pymatgen_core !! i = Some c →
            (straight_line c = false ↔ In i [10; 12; 21; 26; 34]))
  ∧ Forall (λ i, ∃ c, pymatgen_core !! i = Some c
                      ∧ existsb has_for (cell_body c) = true
                      ∧ (existsb has_if (cell_body c) = false ↔ i = 34))
      [10; 12; 21; 26; 34]
  ∧ repo_defined = []
  ∧ Forall (λ s, has_while_or_try s = false) repo_stmts.
Proof.
  split; [| split; [| split; [| split]]].
  - apply List.Forall_forall. apply forallb_forall. vm_compute. reflexivity.
  - intros i c Hc. rewrite <- branching_cells_core.
    unfold branching_cells. rewrite positions_spec. split.
    + intros Hf. exists c. by rewrite Hf.
    + intros (c' & Hc' & Hn).
      pose proof (eq_trans (eq_sym Hc) Hc') as [= ->].
      by apply negb_true_iff.
  - repeat (apply Forall_cons; split;
            [eexists; split; [reflexivity |];
             split; [vm_compute; reflexivity |];
             split; [vm_compute; try discriminate; try lia; done | intros; try (vm_compute; reflexivity); try lia; try discriminate] |]).
    apply Forall_nil. done.
  - apply repo_defines_nothing.
  - apply repo_no_while_or_try.
Qed.

End NotebookProps.

(** ** The run of the band-structure notebook *)

Module RunProps.
Import Py FS.

(** *** Reading and rewriting directories *)

Lemma get_dir_app p q r : get_dir (p ++ q) r = get_dir p r ≫= get_dir q.
Proof.
  revert r. induction p as [|x p IH]; intros r; simpl; [done |].
  destruct (r !! x) as [[]|]; simpl; auto.
Qed.

Lemma at_path_get_dir p f r r' d :
  at_path p f r = Some r' → get_dir p r = Some d → get_dir p r' = Some (f d).
Proof.
  revert r r' d. induction p as [|x p IH]; intros r r' d; simpl.
  - congruence.
  - destruct (r !! x) as [[|e]|]; try done.
    destruct (at_path p f e) as [e'|] eqn:He; simpl; [| done].
    intros [= <-] Hd. rewrite lookup_insert_eq. eauto.
Qed.

Lemma at_path_defined p f r d :
  get_dir p r = Some d → ∃ r', at_path p f r = Some r'.
Proof.
  revert r d. induction p as [|x p IH]; intros r d; simpl; [eauto |].
  destruct (r !! x) as [[|e]|]; try done.
  intros Hd. destruct (IH _ _ Hd) as [e' ->]. simpl. eauto.
Qed.

Lemma at_path_compose p f g r r' :
  at_path p f r = Some r' → at_path p g r' = at_path p (g ∘ f) r.
Proof.
  revert r r'. induction p as [|x p IH]; intros r r'; simpl.
  - by intros [= <-].
  - destruct (r !! x) as [[|e]|]; try done.
    destruct (at_path p f e) as [e'|] eqn:He; simpl; [| done].
    intros [= <-]. rewrite lookup_insert_eq, (IH _ _ He).
    destruct (at_path p (g ∘ f) e); simpl; [| done].
    by rewrite insert_insert_eq.
Qed.

(** Only the value of the function on the directory at [p] matters. *)
Lemma at_path_agree p f g r d :
  get_dir p r = Some d → f d = g d → at_path p f r = at_path p g r.
Proof.
  revert r d. induction p as [|x p IH]; intros r d; simpl.
  - by intros [= ->] ->.
  - destruct (r !! x) as [[|e]|]; try done.
    intros Hd Hfg. by rewrite (IH _ _ Hd Hfg).
Qed.

Lemma at_path_id p r d : get_dir p r = Some d → at_path p id r = Some r.
Proof.
  revert r d. induction p as [|x p IH]; intros r d; simpl; [done |].
  destruct (r !! x) as [[|e]|] eqn:Hx; try done.
  intros Hd. rewrite (IH _ _ Hd). simpl. by rewrite insert_id.
Qed.

(** Rewriting inside a directory that was just put in place is putting the
    rewritten directory in place. *)
Lemma at_path_inside p x e g r0 r :
  at_path p (insert x (Dir e)) r0 = Some r →
  at_path (p ++ [x]) g r = at_path p (insert x (Dir (g e))) r0.
Proof.
  revert r0 r. induction p as [|y p IH]; intros r0 r; simpl.
  - intros [= <-]. rewrite lookup_insert_eq. simpl.
    by rewrite insert_insert_eq.
  - destruct (r0 !! y) as [[|d]|]; try done.
    destruct (at_path p (insert x (Dir e)) d) as [d'|] eqn:Hd; simpl; [| done].
    intros [= <-]. rewrite lookup_insert_eq, (IH _ _ Hd).
    destruct (at_path p (insert x (Dir (g e))) d); simpl; [| done].
    by rewrite insert_insert_eq.
Qed.

(** Removing what was put in place, where nothing was, restores the tree. *)
Lemma at_path_remove_inserted p x v r0 r d0 :
  get_dir p r0 = Some d0 → d0 !! x = None →
  at_path p (insert x v) r0 = Some r →
  at_path p (sh_rm_rf x) r = Some r0.
Proof.
  intros Hd Hx Hr. rewrite (at_path_compose _ _ _ _ _ Hr).
  rewrite (at_path_agree p _ id r0 d0 Hd).
  - by eapply at_path_id.
  - unfold sh_rm_rf. simpl. rewrite delete_insert_eq. by apply delete_id.
Qed.

(** The other entries of the parent directory are those of the initial
    tree. *)
Lemma entry_at_inserted p x v r0 r name :
  at_path p (insert x v) r0 = Some r → name ≠ x →
  entry_at p name r = entry_at p name r0.
Proof.
  intros Hr Hne. unfold entry_at.
  destruct (get_dir p r0) as [d0|] eqn:Hd.
  - rewrite (at_path_get_dir _ _ _ _ _ Hr Hd). simpl.
    by rewrite lookup_insert_ne.
  - exfalso. clear Hne. revert r0 r Hr Hd.
    induction p as [|y p IH]; intros r0 r; simpl; [done |].
    destruct (r0 !! y) as [[|e]|]; try done.
    destruct (at_path p (insert x v) e) eqn:He; simpl; [| done].
    intros _ Hd. eapply IH; eauto.
Qed.

(** *** Walking paths *)

Lemma walk_dot r p : walk r p "." = Some p.
Proof. reflexivity. Qed.

Lemma walk_up r p x : walk r (p ++ [x]) ".." = Some p.
Proof.
  unfold walk. simpl. unfold walk_component. simpl.
  by rewrite removelast_last.
Qed.

Lemma walk_work_dir r p d :
  get_dir (p ++ [work_dir]) r = Some d →
  walk r p work_dir = Some (p ++ [work_dir]).
Proof.
  unfold work_dir. intros H. unfold walk.
  change (Str.split_on "/"%char "Si_BandStructure") with ["Si_BandStructure"].
  change (Str.starts_with "/" "Si_BandStructure") with false.
  cbn [fold_left]. unfold walk_component. simpl. by rewrite H.
Qed.

(** *** Phases of the run *)

Section Phases.

Variable lib : nat → stmt → state → lib_effect.
Variable st0 : state.

(** In the work directory, the working directory is the one put in
    place. *)
Lemma inside_dir st d0 e :
  cwd st = cwd st0 ++ [work_dir] →
  get_dir (cwd st0) (root st0) = Some d0 →
  at_path (cwd st0) (insert work_dir (Dir e)) (root st0) = Some (root st) →
  get_dir (cwd st) (root st) = Some e.
Proof.
  intros Hcwd Hd Hr.
  rewrite Hcwd, get_dir_app, (at_path_get_dir _ _ _ _ _ Hr Hd). simpl.
  by rewrite lookup_insert_eq.
Qed.

(** A step that the phase discipline admits leads to a state of the next
    phase when it ends normally; when it raises, the state is still one of
    the phase it started in, and the step is [os.mkdir] or a library
    call. *)
Lemma perform_sound k s ph a ph' st st' e :
  phase_step ph a = Some ph' → in_phase st0 ph st →
  perform lib k s a st = Went st' e →
  match e with
  | None => in_phase st0 ph' st'
  | Some _ =>
      in_phase st0 ph st'
      ∧ match a with Mkdir _ | Pure | WriteIn _ => True | _ => False end
  end.
Proof.
  destruct ph, a; simpl; try done;
    try (by intros [= <-] Hph [= <- <-]);
    try (by intros [= <-] Hph [= <- <-]; destruct (raises _)).
  - (* Outside, os.mkdir *)
    destruct (String.eqb_spec name work_dir) as [-> |]; [| done].
    intros [= <-] ->.
    destruct (get_dir (cwd st0) (root st0)) as [d0|] eqn:Hd;
      [| by intros [= <- <-]].
    destruct (d0 !! work_dir) eqn:Hx; [by intros [= <- <-] |].
    destruct (at_path (cwd st0) (insert work_dir (Dir ∅)) (root st0))
      as [r|] eqn:Hr; [| done].
    intros [= <- <-]. simpl. split; [done |]. exists d0, ∅. done.
  - (* Created, os.chdir into the work directory *)
    destruct (String.eqb_spec path work_dir) as [-> |]; [| done].
    intros [= <-] (Hcwd & d0 & e0 & Hd & Hx & Hr).
    assert (Hw : get_dir (cwd st ++ [work_dir]) (root st) = Some e0).
    { rewrite Hcwd, get_dir_app, (at_path_get_dir _ _ _ _ _ Hr Hd). simpl.
      by rewrite lookup_insert_eq. }
    rewrite (walk_work_dir _ _ _ Hw).
    intros [= <- <-]. simpl. split; [by rewrite Hcwd |]. exists d0, e0. done.
  - (* Created, rm -Rf of the work directory *)
    destruct (String.eqb_spec name work_dir) as [-> |]; [| done].
    intros [= <-] (Hcwd & d0 & e0 & Hd & Hx & Hr).
    rewrite Hcwd, (at_path_remove_inserted _ _ _ _ _ _ Hd Hx Hr).
    intros [= <- <-]. simpl. by destruct st0.
  - (* Inside, os.chdir to the parent *)
    destruct (String.eqb_spec path "..") as [-> |]; [| done].
    intros [= <-] (Hcwd & d0 & e0 & Hd & Hx & Hr).
    rewrite Hcwd, walk_up.
    intros [= <- <-]. simpl. split; [done |]. exists d0, e0. done.
  - (* Inside, rm -Rf of an entry of the work directory *)
    intros [= <-] (Hcwd & d0 & e0 & Hd & Hx & Hr).
    rewrite Hcwd, (at_path_inside _ _ _ _ _ _ Hr).
    destruct (at_path (cwd st0) (insert work_dir (Dir (sh_rm_rf name e0)))
                (root st0)) as [r|] eqn:Hr'; [| done].
    intros [= <- <-]. simpl. split; [done |]. exists d0, (sh_rm_rf name e0). done.
  - (* Inside, a shell line *)
    intros [= <-] (Hcwd & d0 & e0 & Hd & Hx & Hr).
    rewrite (inside_dir _ _ _ Hcwd Hd Hr).
    destruct (f st e0) as [d'|]; [| done].
    rewrite Hcwd, (at_path_inside _ _ _ _ _ _ Hr).
    destruct (at_path (cwd st0) (insert work_dir (Dir d')) (root st0))
      as [r|] eqn:Hr'; [| done].
    intros [= <- <-]. simpl. split; [done |]. exists d0, d'. done.
  - (* Inside, a library call that writes in [.] *)
    destruct (String.eqb_spec path ".") as [-> |]; [| done].
    intros [= <-] (Hcwd & d0 & e0 & Hd & Hx & Hr).
    rewrite walk_dot, Hcwd, (at_path_inside _ _ _ _ _ _ Hr).
    destruct (at_path (cwd st0)
                (insert work_dir (Dir (writes (lib k s st) e0))) (root st0))
      as [r|] eqn:Hr'; [| done].
    intros [= <- <-].
    assert (Hin : in_phase st0 Inside (State r (cwd st0 ++ [work_dir]))).
    { simpl. split; [done |]. exists d0, (writes (lib k s st) e0). done. }
    by destruct (raises _).
Qed.

(** A cell that stays in its phase ends in it, whether it raises or
    not. *)
Lemma phase_const_run ph ss :
  phase_const ph ss = true → phase_run ph ss = Some ph.
Proof.
  unfold phase_const.
  induction ss as [|s ss IH]; cbn [forallb phase_run]; [done |].
  destruct (phase_step ph (action_of s)) as [ph1|]; [| done].
  intros [H1 H2]%andb_prop.
  assert (ph1 = ph) as -> by (by destruct ph1, ph).
  simpl. auto.
Qed.

Lemma run_cell_const ss : ∀ k ph st st' e sk,
  phase_const ph ss = true → in_phase st0 ph st →
  run_cell lib k ss st = CellRan st' e sk → in_phase st0 ph st'.
Proof.
  unfold phase_const.
  induction ss as [|s ss IH]; intros k ph st st' e sk;
    cbn [forallb run_cell].
  - by intros _ ? [= <- _ _].
  - destruct (phase_step ph (action_of s)) as [ph1|] eqn:Hstep; [| done].
    intros [H1 H2]%andb_prop Hph.
    assert (ph1 = ph) as -> by (by destruct ph1, ph).
    pose proof (perform_sound k s ph (action_of s) ph st) as Hs.
    destruct (perform lib k s (action_of s) st) as [st1 [x|]|]; [| | done].
    + intros [= <- _ _]. by destruct (Hs _ _ Hstep Hph eq_refl).
    + apply IH; [done |]. exact (Hs _ _ Hstep Hph eq_refl).
Qed.

(** A cell without library statements follows its phases, and raises at
    [os.mkdir] only. *)
Lemma run_cell_quiet ss : ∀ k ph ph' st st' e sk,
  no_library ss = true → phase_run ph ss = Some ph' → in_phase st0 ph st →
  run_cell lib k ss st = CellRan st' e sk →
  match e with
  | None => in_phase st0 ph' st'
  | Some _ => has_mkdir ss = true
  end.
Proof.
  unfold no_library, has_mkdir.
  induction ss as [|s ss IH]; intros k ph ph' st st' e sk;
    cbn [forallb existsb phase_run run_cell].
  - by intros _ [= <-] Hph [= <- <- _].
  - intros [H1 H2]%andb_prop.
    destruct (phase_step ph (action_of s)) as [ph1|] eqn:Hstep; [| done].
    simpl. intros Hrun Hph.
    pose proof (perform_sound k s ph (action_of s) ph1 st) as Hs.
    destruct (perform lib k s (action_of s) st) as [st1 [x|]|]; [| | done].
    + intros [= <- <- _].
      destruct (Hs _ _ Hstep Hph eq_refl) as [_ Ha].
      by destruct (action_of s).
    + intros Hc.
      pose proof (IH _ _ _ _ _ _ _ H2 Hrun (Hs _ _ Hstep Hph eq_refl) Hc) as H.
      destruct e; [| done]. rewrite H. apply orb_true_r.
Qed.

Lemma mkdir_cells_cons i body rest :
  mkdir_cells ((i, body) :: rest)
  = if has_mkdir body then i :: mkdir_cells rest else mkdir_cells rest.
Proof. unfold mkdir_cells. simpl. by destruct (has_mkdir body). Qed.

Lemma mkdir_cells_app l1 l2 :
  mkdir_cells (l1 ++ l2) = mkdir_cells l1 ++ mkdir_cells l2.
Proof. unfold mkdir_cells. by rewrite List.filter_app, map_app. Qed.

(** Cell by cell: as long as no cell with [os.mkdir] raises, the run
    follows the phases, whatever else raises. *)
Lemma run_cells_sound cells : ∀ k ph ph' st st' log,
  cells_phase ph cells = Some ph' → in_phase st0 ph st →
  run_cells lib k cells st = Finished st' log →
  Forall (λ i, ¬ In (in_cell i) (mkdir_cells cells)) log →
  in_phase st0 ph' st'.
Proof.
  induction cells as [|[i body] rest IH]; intros k ph ph' st st' log;
    cbn [cells_phase run_cells].
  - by intros [= <-] ? [= <- _] _.
  - destruct (phase_const ph body || no_library body) eqn:Hok; [| done].
    destruct (phase_run ph body) as [ph1|] eqn:Hrun; [| done]. simpl.
    intros Hrest Hph.
    destruct (run_cell lib k body st) as [st1 e sk|] eqn:Hc; [| done].
    destruct (run_cells lib (k + length body) rest st1) as [st2 log2|] eqn:Hcs;
      [| done].
    intros [= <- <-] Hlog. rewrite mkdir_cells_cons in Hlog.
    assert (Hph1 : in_phase st0 ph1 st1).
    { destruct (phase_const ph body) eqn:Hconst.
      - rewrite (phase_const_run _ _ Hconst) in Hrun. injection Hrun as <-.
        eapply run_cell_const; eauto.
      - simpl in Hok.
        pose proof (run_cell_quiet _ _ _ _ _ _ _ _ Hok Hrun Hph Hc) as Hq.
        destruct e as [x|]; [| done]. rewrite Hq in Hlog.
        apply List.Forall_inv in Hlog. simpl in Hlog. tauto. }
    apply (IH _ _ _ _ _ _ Hrest Hph1 Hcs).
    assert (Hlog2 : Forall (λ inc, ¬ In (in_cell inc)
                              (if has_mkdir body then i :: mkdir_cells rest
                               else mkdir_cells rest)) log2).
    { destruct e; [by apply List.Forall_inv_tail in Hlog | done]. }
    eapply List.Forall_impl; [| exact Hlog2].
    intros inc Hn Hin. apply Hn. destruct (has_mkdir body); [by right | done].
Qed.

Lemma cells_phase_app l1 l2 : ∀ ph,
  cells_phase ph (l1 ++ l2) = ph' ← cells_phase ph l1; cells_phase ph' l2.
Proof.
  induction l1 as [|[i body] l1 IH]; intros ph; cbn [app cells_phase]; [done |].
  destruct (phase_const ph body || no_library body); [| done].
  destruct (phase_run ph body); simpl; [| done]. apply IH.
Qed.

Lemma run_cells_app l1 : ∀ k, ∃ k', ∀ l2 st,
  run_cells lib k (l1 ++ l2) st
  = match run_cells lib k l1 st with
    | Finished st1 log1 =>
        match run_cells lib k' l2 st1 with
        | Finished st2 log2 => Finished st2 (log1 ++ log2)
        | Unmodelled => Unmodelled
        end
    | Unmodelled => Unmodelled
    end.
Proof.
  induction l1 as [|[i body] l1 IH]; intros k.
  - exists k. intros l2 st. simpl. by destruct (run_cells lib k l2 st).
  - destruct (IH (k + length body)) as [k' Hk']. exists k'. intros l2 st.
    cbn [app run_cells].
    destruct (run_cell lib k body st) as [st1 e sk|]; [| done].
    rewrite Hk'.
    destruct (run_cells lib (k + length body) l1 st1) as [sta loga|]; [| done].
    destruct (run_cells lib k' l2 sta); [| done]. by destruct e.
Qed.

(** The same after any number of cells. *)
Lemma run_prefix_sound l1 l2 k ph' st' log st1 log1 :
  cells_phase Outside (l1 ++ l2) = Some ph' →
  run_cells lib k (l1 ++ l2) st0 = Finished st' log →
  Forall (λ i, ¬ In (in_cell i) (mkdir_cells (l1 ++ l2))) log →
  run_cells lib k l1 st0 = Finished st1 log1 →
  ∃ ph, cells_phase Outside l1 = Some ph ∧ in_phase st0 ph st1.
Proof.
  rewrite cells_phase_app, mkdir_cells_app.
  destruct (cells_phase Outside l1) as [ph|] eqn:Hph; [| done].
  intros _ Hrun Hlog H1. exists ph. split; [done |].
  destruct (run_cells_app l1 k) as [k' Hk']. rewrite Hk', H1 in Hrun.
  destruct (run_cells lib k' l2 st1) as [st2 log2|]; [| done].
  injection Hrun as <- <-.
  apply (run_cells_sound _ _ _ _ _ _ _ Hph eq_refl H1).
  apply List.Forall_app in Hlog as [Hlog _].
  eapply List.Forall_impl; [| exact Hlog].
  intros inc Hn Hin. apply Hn, in_or_app. by left.
Qed.

(** Within a cell: after any number of its statements, raised or not, the
    state is one of some phase. *)
Lemma run_cell_any ss : ∀ k ph ph' st st' e sk,
  phase_run ph ss = Some ph' → in_phase st0 ph st →
  run_cell lib k ss st = CellRan st' e sk → ∃ ph'', in_phase st0 ph'' st'.
Proof.
  induction ss as [|s ss IH]; intros k ph ph' st st' e sk;
    cbn [phase_run run_cell].
  - intros _ Hph [= <- _ _]. eauto.
  - destruct (phase_step ph (action_of s)) as [ph1|] eqn:Hstep; [| done].
    simpl. intros Hrun Hph.
    pose proof (perform_sound k s ph (action_of s) ph1 st) as Hs.
    destruct (perform lib k s (action_of s) st) as [st1 [x|]|]; [| | done].
    + intros [= <- _ _]. destruct (Hs _ _ Hstep Hph eq_refl). eauto.
    + apply (IH _ _ _ _ _ _ _ Hrun). exact (Hs _ _ Hstep Hph eq_refl).
Qed.

Lemma phase_run_take m : ∀ ss ph ph',
  phase_run ph ss = Some ph' → ∃ ph'', phase_run ph (take m ss) = Some ph''.
Proof.
  induction m as [|m IH]; intros [|s ss] ph ph'; cbn [take phase_run]; eauto.
  destruct (phase_step ph (action_of s)) as [ph1|]; [| done]. simpl.
  apply IH.
Qed.

Lemma cells_phase_at cells j i body ph ph' :
  cells !! j = Some (i, body) →
  cells_phase Outside cells = Some ph' →
  cells_phase Outside (take j cells) = Some ph →
  ∃ ph1, phase_run ph body = Some ph1.
Proof.
  intros Hj Hall Hpre. rewrite <- (take_drop_middle _ _ _ Hj) in Hall.
  rewrite cells_phase_app, Hpre in Hall. simpl in Hall.
  destruct (phase_const ph body || no_library body); [| done].
  destruct (phase_run ph body); [eauto | done].
Qed.

(** An exception is logged under the cell it was raised in. *)
Lemma log_cells cells : ∀ k st st' log,
  run_cells lib k cells st = Finished st' log →
  Forall (λ i, In (in_cell i) (map fst cells)) log.
Proof.
  induction cells as [|[i body] rest IH]; intros k st st' log;
    cbn [run_cells].
  - intros [= _ <-]. constructor.
  - destruct (run_cell lib k body st) as [st1 e sk|]; [| done].
    destruct (run_cells lib (k + length body) rest st1) as [st2 log2|] eqn:Hcs;
      [| done].
    intros [= _ <-]. apply IH in Hcs.
    assert (H2 : Forall (λ inc, In (in_cell inc) (map fst ((i, body) :: rest)))
                   log2).
    { eapply List.Forall_impl; [| exact Hcs]. intros inc Hin. by right. }
    destruct e; [| done]. constructor; [by left | done].
Qed.

(** In every phase the tree is the initial one but for the work
    directory. *)
Lemma in_phase_differs ph st :
  in_phase st0 ph st → only_work_dir_differs st0 st.
Proof.
  destruct ph; simpl.
  - intros ->. by left.
  - intros (_ & d0 & e & _ & _ & Hr). right. eauto.
  - intros (_ & d0 & e & _ & _ & Hr). right. eauto.
Qed.

Lemma differs_entries st name :
  only_work_dir_differs st0 st → name ≠ work_dir →
  entry_at (cwd st0) name (root st) = entry_at (cwd st0) name (root st0).
Proof.
  intros [-> | [e He]] Hne; [done |].
  by eapply entry_at_inserted.
Qed.

(** *** The notebook *)

(** The cells of the notebook keep to the phases, and end where they
    started; [os.mkdir] is called in cell 3 only. *)
Lemma notebook_phases : cells_phase Outside code_cells = Some Outside.
Proof. vm_compute. reflexivity. Qed.

Lemma notebook_mkdir_cells : mkdir_cells code_cells = [3].
Proof. vm_compute. reflexivity. Qed.

(** The first two code cells: the imports, then [os.mkdir] and
    [os.chdir]. *)
Lemma code_cells_setup :
  code_cells
  = (2, take 6 script)
    :: (3, [ SExpr (meth (EName "os") "mkdir" [EStr work_dir]);
             SExpr (meth (EName "os") "chdir" [EStr work_dir]) ])
    :: drop 2 code_cells.
Proof. reflexivity. Qed.

Lemma run_cell_nops ss : ∀ k st,
  forallb (λ s, match action_of s with Nop => true | _ => false end) ss = true →
  run_cell lib k ss st = CellRan st None 0.
Proof.
  induction ss as [|s ss IH]; intros k st; cbn [forallb run_cell]; [done |].
  intros [H1 H2]%andb_prop.
  destruct (action_of s); try done. cbn [perform]. by apply IH.
Qed.

Lemma later_cells : ¬ In 3 (map fst (drop 2 code_cells)).
Proof. vm_compute. intuition discriminate. Qed.

(** What the first two cells do: either [os.mkdir] makes the work
    directory, empty, and [os.chdir] enters it, and cell 3 raises nothing;
    or [os.mkdir] raises, and [os.chdir] is left out. *)
Lemma setup_run st' log :
  run_notebook lib st0 = Finished st' log →
  (∃ d0 st1, get_dir (cwd st0) (root st0) = Some d0
             ∧ d0 !! work_dir = None
             ∧ run_first lib 2 st0 = Finished st1 []
             ∧ cwd st1 = cwd st0 ++ [work_dir]
             ∧ at_path (cwd st0) (insert work_dir (Dir ∅)) (root st0)
               = Some (root st1)
             ∧ Forall (λ i, in_cell i ≠ 3) log)
  ∨ (∃ x log', log = Incident 3 x 1 :: log'
               ∧ ¬ ∃ d0, get_dir (cwd st0) (root st0) = Some d0
                         ∧ d0 !! work_dir = None).
Proof.
  unfold run_notebook, run_first. rewrite code_cells_setup.
  change (take 2 (_ :: _ :: drop 2 code_cells))
    with [ (2, take 6 script);
           (3, [ SExpr (meth (EName "os") "mkdir" [EStr work_dir]);
                 SExpr (meth (EName "os") "chdir" [EStr work_dir]) ]) ].
  cbn [run_cells]. rewrite !run_cell_nops by reflexivity.
  cbn [run_cell].
  change (action_of (SExpr (meth (EName "os") "mkdir" [EStr work_dir])))
    with (Mkdir work_dir).
  change (action_of (SExpr (meth (EName "os") "chdir" [EStr work_dir])))
    with (Chdir work_dir).
  unfold perform at 1 3.
  destruct (get_dir (cwd st0) (root st0)) as [d0|] eqn:Hd.
  2:{ destruct (run_cells _ _ _ _) as [st2 log2|]; [| done].
      intros [= _ <-]. right. eexists _, _. split; [done |].
      by intros (? & ? & _). }
  destruct (d0 !! work_dir) eqn:Hx.
  { destruct (run_cells _ _ _ _) as [st2 log2|]; [| done].
    intros [= _ <-]. right. eexists _, _. split; [done |].
    intros (? & [= <-] & ?). congruence. }
  destruct (at_path (cwd st0) (insert work_dir (Dir ∅)) (root st0))
    as [r|] eqn:Hr; [| done].
  unfold perform. cbn [root cwd].
  assert (Hw : get_dir (cwd st0 ++ [work_dir]) r = Some ∅).
  { rewrite get_dir_app, (at_path_get_dir _ _ _ _ _ Hr Hd). simpl.
    by rewrite lookup_insert_eq. }
  rewrite (walk_work_dir _ _ _ Hw).
  destruct (run_cells _ _ _ _) as [st2 log2|] eqn:Hrest; [| done].
  intros [= _ <-]. left. exists d0, (State r (cwd st0 ++ [work_dir])).
  do 3 (split; [done |]). split; [done |]. split; [done |].
  apply log_cells in Hrest.
  eapply List.Forall_impl; [| exact Hrest].
  intros inc Hin Heq. cbv beta in Hin. rewrite Heq in Hin.
  by apply later_cells.
Qed.

(** When cell 3 raises nothing, the run ends in the state it started in,
    and after every statement the tree is the initial one but for the work
    directory. *)
Lemma notebook_frame st' log :
  run_notebook lib st0 = Finished st' log →
  Forall (λ i, in_cell i ≠ 3) log →
  st' = st0
  ∧ ∀ j m st_m log_m, run_into lib j m st0 = Finished st_m log_m →
      only_work_dir_differs st0 st_m.
Proof.
  intros Hrun Hlog.
  assert (Hlog' : Forall (λ i, ¬ In (in_cell i) (mkdir_cells code_cells)) log).
  { rewrite notebook_mkdir_cells.
    eapply List.Forall_impl; [| exact Hlog].
    intros inc Hne [Heq | []]. by apply Hne. }
  split.
  - exact (run_cells_sound _ _ _ _ _ _ _ notebook_phases eq_refl Hrun Hlog').
  - intros j m st_m log_m Hm. unfold run_notebook, run_into in *.
    destruct (run_cells_app (take j code_cells) 0) as [k' Hk'].
    rewrite Hk' in Hm.
    destruct (run_cells lib 0 (take j code_cells) st0) as [st_j log_j|] eqn:Hj;
      [| done].
    assert (Hpre : ∃ ph, cells_phase Outside (take j code_cells) = Some ph
                         ∧ in_phase st0 ph st_j).
    { rewrite <- (take_drop j code_cells) in Hrun, Hlog'.
      pose proof notebook_phases as Hph.
      rewrite <- (take_drop j code_cells) in Hph.
      exact (run_prefix_sound _ _ _ _ _ _ _ _ Hph Hrun Hlog' Hj). }
    destruct Hpre as (ph & Hph & Hin).
    destruct (code_cells !! j) as [[i body]|] eqn:Hcj.
    + cbn [run_cells] in Hm.
      destruct (run_cell lib k' (take m body) st_j) as [st1 e sk|] eqn:Hc;
        [| done].
      injection Hm as <- _.
      destruct (cells_phase_at _ _ _ _ _ _ Hcj notebook_phases Hph) as [ph1 H1].
      destruct (phase_run_take m _ _ _ H1) as [ph2 H2].
      destruct (run_cell_any _ _ _ _ _ _ _ _ H2 Hin Hc) as [ph3 H3].
      by eapply in_phase_differs.
    + cbn [run_cells] in Hm. injection Hm as <- _.
      by eapply in_phase_differs.
Qed.

(** Run at once, the statements come one after the other. *)
Lemma run_from_app l1 l2 : ∀ k st,
  run_from lib k (l1 ++ l2) st
  = bind (run_from lib k l1 st) (run_from lib (k + length l1) l2).
Proof.
  induction l1 as [|s l1 IH]; intros k st; simpl.
  - by rewrite Nat.add_0_r.
  - destruct (exec lib k s st); simpl; try done.
    rewrite IH. by replace (S k + length l1) with (k + S (length l1)) by lia.
Qed.





(** A run at once that ends normally is the run cell by cell in which
    nothing raises. *)
Lemma run_from_cell ss : ∀ k st st',
  run_from lib k ss st = Done st' → run_cell lib k ss st = CellRan st' None 0.
Proof.
  induction ss as [|s ss IH]; intros k st st'; cbn [run_from run_cell].
  - by intros [= <-].
  - unfold exec.
    destruct (perform lib k s (action_of s) st) as [st1 [x|]|]; simpl;
      try done.
    apply IH.
Qed.

Lemma run_from_cells cells : ∀ k st st',
  run_from lib k (concat (map snd cells)) st = Done st' →
  run_cells lib k cells st = Finished st' [].
Proof.
  induction cells as [|[i body] rest IH]; intros k st st';
    cbn [map concat snd run_cells].
  - by intros [= <-].
  - rewrite run_from_app.
    destruct (run_from lib k body st) as [st1| |] eqn:H1; simpl; try done.
    intros H2. by rewrite (run_from_cell _ _ _ _ H1), (IH _ _ _ H2).
Qed.

Lemma run_all_by_hand st' :
  run lib st0 = Done st' → run_notebook lib st0 = Finished st' [].
Proof. exact (run_from_cells code_cells 0 st0 st'). Qed.

End Phases.

(** *** The frame of a run *)

(** C10: a complete run of the band-structure notebook (every cell run in
    order, no statement left out by an exception, the library calls
    writing and raising as they will) creates [Si_BandStructure], empty, in
    the directory it starts in and enters it in its first two code cells;
    after every statement of the run the tree is the initial one but for
    the content of that directory, so that every other entry of the parent
    directory is as it was; at the end the run is back in the parent
    directory, [Si_BandStructure] is gone, and every other entry of the
    parent directory is unchanged. *)
Theorem bandstructure_run_frame lib st st' log :
  run_notebook lib st = Finished st' log → complete log →
  (∃ st1, run_first lib 2 st = Finished st1 []
          ∧ cwd st1 = cwd st ++ [work_dir]
          ∧ get_dir (cwd st1) (root st1) = Some ∅)
  ∧ (∀ j m st_m log_m, run_into lib j m st = Finished st_m log_m →
       only_work_dir_differs st st_m
       ∧ ∀ name, name ≠ work_dir →
           entry_at (cwd st) name (root st_m) = entry_at (cwd st) name (root st))
  ∧ cwd st' = cwd st
  ∧ entry_at (cwd st) work_dir (root st') = None
  ∧ (∀ name, name ≠ work_dir →
       entry_at (cwd st) name (root st') = entry_at (cwd st) name (root st)).
Proof.
  intros Hrun Hcomplete.
  destruct (setup_run lib st st' log Hrun)
    as [(d0 & st1 & Hd & Hx & H2 & Hcwd & Hr & Hlog)
       | (x & log' & -> & _)].
  2:{ apply List.Forall_inv in Hcomplete. done. }
  destruct (notebook_frame lib st st' log Hrun Hlog) as [-> Hall].
  split; [| split; [| split; [| split]]].
  - exists st1. split; [done |]. split; [done |].
    by apply (inside_dir st st1 d0 ∅).
  - intros j m st_m log_m Hm.
    pose proof (Hall j m st_m log_m Hm) as Hdiff. split; [done |].
    intros name Hne. by apply differs_entries.
  - done.
  - unfold entry_at. by rewrite Hd.
  - done.
Qed.

(** The run on the small tree: [c.run()] raises in cell 27 (there is no
    [vasprun.xml] for the validator), at the end of its cell; the run is
    complete, and the theorem applies. *)
Lemma bandstructure_run_frame_witness :
  run_notebook demo_lib demo_state
  = Finished demo_state [Incident 27 "RuntimeError" 0]
  ∧ complete [Incident 27 "RuntimeError" 0]
  ∧ (∀ j m st_m log_m, run_into demo_lib j m demo_state = Finished st_m log_m →
       only_work_dir_differs demo_state st_m)
  ∧ entry_at (cwd demo_state) work_dir (root demo_state) = None.
Proof.
  assert (H : run_notebook demo_lib demo_state
              = Finished demo_state [Incident 27 "RuntimeError" 0])
    by (vm_compute; reflexivity).
  assert (Hc : complete [Incident 27 "RuntimeError" 0])
    by (repeat constructor).
  split; [exact H |]. split; [exact Hc |].
  destruct (bandstructure_run_frame demo_lib demo_state demo_state _ H Hc)
    as (_ & Hk & _ & Hgone & _).
  split; [| exact Hgone].
  intros j m st_m log_m Hrun. by destruct (Hk j m st_m log_m Hrun).
Defined.

(** The same for a run at once: when it ends normally, it ends in the
    state it started in. *)
Lemma run_all_restores lib st st' : run lib st = Done st' → st' = st.
Proof.
  intros Hrun%run_all_by_hand.
  by destruct (notebook_frame lib st st' [] Hrun (List.Forall_nil _)).
Qed.




(** On the tree where the directory is taken, the cells run by hand go on
    after [os.mkdir] has raised: [os.chdir] is left out, and the rest of
    the notebook then works in the parent directory, where the last cells
    move its entries into [static] and leave the input files behind. *)
Lemma by_hand_when_taken :
  ∃ st' log,
    run_notebook demo_lib demo_state_taken = Finished st' log
    ∧ head log = Some (Incident 3 "OSError: File exists" 1)
    ∧ entry_at ["work"] "outputs" (root demo_state_taken) = Some (Dir demo_outputs)
    ∧ entry_at ["work"] "outputs" (root st') = None.
Proof. eexists _, _. vm_compute. done. Qed.

End RunProps.

(** ** The loops of the core notebook *)

Module CellProps.
Import Cells.

Section Sites.

Variable site : Type.
Variable species_string : site → string.
Variable with_species : site → string → site.

Local Abbreviation flags := (sd_flags site species_string).
Local Abbreviation fluor := (fluorinated site species_string with_species).

Lemma sd_step_at big sd i s :
  big !! i = Some s →
  sd_step site species_string big (Ok sd) i = Ok (sd ++ [flags s]).
Proof.
  intros Hs. unfold sd_step, index, sd_flags. simpl. rewrite Hs. simpl.
  by destruct (String.eqb (species_string s) "Nb").
Qed.

Lemma sd_fold big : ∀ k i sd,
  i + k ≤ length big →
  fold_left (sd_step site species_string big) (seq i k) (Ok sd)
  = Ok (sd ++ map flags (take k (drop i big))).
Proof.
  induction k as [|k IH]; intros i sd Hle; cbn [fold_left seq].
  - simpl. by rewrite app_nil_r.
  - destruct (lookup_lt_is_Some_2 big i) as [s Hs]; [lia |].
    rewrite (sd_step_at _ _ _ _ Hs), IH by lia.
    rewrite (drop_S _ _ _ Hs). simpl. by rewrite <- app_assoc.
Qed.

(** X1: the loop of cell 10 never indexes out of range and gives [sd] one
    entry per site, in site order: three [False] for an Nb site, three
    [True] for any other. *)
Theorem selective_dynamics_per_site big :
  selective_dynamics site species_string big
  = Ok (map (λ s, if String.eqb (species_string s) "Nb"
                  then [false; false; false] else [true; true; true]) big).
Proof.
  unfold selective_dynamics, range.
  rewrite (sd_fold big (length big) 0 []) by lia.
  by rewrite drop_0, firstn_all.
Qed.

(** X2: cell 10 raises [IndexError] on a structure without sites; on any
    other structure it leaves site 0 an Nb site, so that, when
    [structure[n] = species] gives the site that species, the first entry
    of [sd] is always three [False]; [names] stays empty. *)
Theorem cell10_outcome
    (Hsp : ∀ s sp, species_string (with_species s sp) = sp) big :
  match big with
  | [] => cell10 site species_string with_species big = Raise "IndexError"
  | s :: rest =>
      cell10 site species_string with_species big
      = Ok (with_species (with_species s "V") "Nb" :: rest,
            [false; false; false]
              :: map (λ s, if String.eqb (species_string s) "Nb"
                           then [false; false; false]
                           else [true; true; true]) rest,
            [])
  end.
Proof.
  destruct big as [|s rest]; [reflexivity |].
  unfold cell10, set_species. simpl.
  rewrite selective_dynamics_per_site. simpl. by rewrite Hsp.
Qed.

Lemma replace_step_at st i x :
  st !! i = Some x →
  replace_step site species_string with_species (Ok st) i
  = Ok (<[i := fluor x]> st).
Proof.
  intros Hx. unfold replace_step, set_species, index, fluorinated. simpl.
  rewrite Hx. simpl. destruct (String.eqb (species_string x) "O").
  - done.
  - by rewrite list_insert_id.
Qed.

Lemma replace_fold s : ∀ k i,
  i + k ≤ length s →
  fold_left (replace_step site species_string with_species) (seq i k)
    (Ok (map fluor (take i s) ++ drop i s))
  = Ok (map fluor (take (i + k) s) ++ drop (i + k) s).
Proof.
  induction k as [|k IH]; intros i Hle; cbn [fold_left seq].
  - by rewrite Nat.add_0_r.
  - destruct (lookup_lt_is_Some_2 s i) as [x Hx]; [lia |].
    assert (Hlen : length (map fluor (take i s)) = i)
      by (rewrite length_map, length_take; lia).
    assert (Hi : (map fluor (take i s) ++ drop i s) !! i = Some x).
    { rewrite lookup_app_r by lia. rewrite Hlen, Nat.sub_diag.
      by rewrite lookup_drop, Nat.add_0_r. }
    rewrite (replace_step_at _ _ _ Hi).
    replace (i + S k) with (S i + k) by lia. rewrite <- IH by lia.
    do 2 f_equal.
    rewrite (take_S_r _ _ _ Hx), map_app, <- app_assoc. simpl.
    rewrite (drop_S _ _ _ Hx).
    rewrite insert_app_r_alt by lia. by rewrite Hlen, Nat.sub_diag.
Qed.

Lemma replace_oxygen_map s :
  replace_oxygen site species_string with_species s
  = Ok (map fluor s).
Proof.
  unfold replace_oxygen, range.
  pose proof (replace_fold s (length s) 0) as H. simpl in H.
  rewrite drop_0 in H. rewrite H by lia.
  by rewrite firstn_all, drop_all, app_nil_r.
Qed.

(** X3: cell 12 raises [IndexError] when the query returns no structure;
    otherwise its loop never indexes out of range and rewrites the first
    structure site by site: an O site gets species F, every other site is
    left as it is, and the number and order of the sites are kept. *)
Theorem exercise1_outcome found :
  exercise1 site species_string with_species found
  = match found with
    | [] => Raise "IndexError"
    | s :: _ =>
        Ok (map (λ x, if String.eqb (species_string x) "O"
                      then with_species x "F" else x) s)
    end.
Proof.
  destruct found as [|s rest]; [reflexivity |].
  unfold exercise1. simpl. apply replace_oxygen_map.
Qed.

(** X4: when [structure[n] = species] gives the site that species, the
    loop of cell 12 leaves no O site, and running it again changes
    nothing. *)
Theorem replace_oxygen_complete
    (Hsp : ∀ s sp, species_string (with_species s sp) = sp) s :
  ∃ s', replace_oxygen site species_string with_species s = Ok s'
        ∧ Forall (λ x, species_string x ≠ "O") s'
        ∧ replace_oxygen site species_string with_species s' = Ok s'.
Proof.
  assert (Hno : ∀ x, species_string (fluor x) ≠ "O").
  { intros x. unfold fluorinated.
    destruct (String.eqb_spec (species_string x) "O"); [| done].
    by rewrite Hsp. }
  exists (map fluor s). split; [apply replace_oxygen_map |]. split.
  - apply List.Forall_forall. intros x Hx.
    apply in_map_iff in Hx as (y & <- & _). apply Hno.
  - rewrite replace_oxygen_map. f_equal. rewrite map_map.
    apply map_ext. intros x. unfold fluorinated at 1.
    destruct (String.eqb_spec (species_string (fluor x)) "O") as [H|];
      [by apply Hno in H | done].
Qed.

End Sites.

Section Matching.

Variable structure : Type.
Variable fit_anonymous : structure → structure → bool.

Lemma matches_fold wo3 l : ∀ acc,
  fold_left (match_step structure fit_anonymous wo3) l acc
  = acc ++ List.filter (λ s, fit_anonymous s wo3) l.
Proof.
  induction l as [|s l IH]; intros acc; simpl.
  - by rewrite app_nil_r.
  - rewrite IH. unfold match_step.
    destruct (fit_anonymous s wo3); [by rewrite <- app_assoc | done].
Qed.

(** X5: the loop of cell 21 collects exactly the structures that fit, in
    the order of the input and as often as they occur there. *)
Theorem find_matches_filter structures wo3 :
  find_matches structure fit_anonymous structures wo3
  = List.filter (λ s, fit_anonymous s wo3) structures.
Proof. unfold find_matches. by rewrite matches_fold. Qed.

Lemma structures_of_Ok query ss :
  structures_of structure query = Ok ss
  ↔ Forall2 (λ q s, q !! "structure" = Some s) query ss.
Proof.
  revert ss. induction query as [|q query IH]; intros ss; simpl.
  - split.
    + intros [= <-]. constructor.
    + intros H. by inversion H.
  - unfold getitem. destruct (q !! "structure") as [s|] eqn:Hq; simpl.
    + destruct (structures_of structure query) as [ss'|e] eqn:Hss; simpl.
      * split.
        -- intros [= <-]. constructor; [done | by apply IH].
        -- intros H. inversion H as [|? s2 ? ss2 Hs2 Hrest]; subst.
           apply IH in Hrest. congruence.
      * split; [done |].
        intros H. inversion H as [|? s2 ? ss2 Hs2 Hrest]; subst.
        apply IH in Hrest. done.
    + split; [done |]. intros H. inversion H; congruence.
Qed.

Lemma structures_of_Raise query e :
  structures_of structure query = Raise e →
  e = "KeyError" ∧ Exists (λ q, q !! "structure" = None) query.
Proof.
  induction query as [|q query IH]; simpl; [done |].
  unfold getitem. destruct (q !! "structure") as [s|] eqn:Hq; simpl.
  - destruct (structures_of structure query) as [ss'|e'] eqn:Hss; simpl;
      [done |].
    intros [= <-]. destruct (IH eq_refl) as [-> Hex].
    split; [done | by apply Exists_cons_tl].
  - intros [= <-]. split; [done | by apply Exists_cons_hd].
Qed.

(** X6: cell 21 raises [KeyError] exactly when some entry of the query
    result has no ["structure"] key; otherwise its [matches] are the
    structures of the entries that fit, in the order of the entries. *)
Theorem cell21_outcome query wo3 :
  (Exists (λ q, q !! "structure" = None) query
   ∧ cell21 structure fit_anonymous query wo3 = Raise "KeyError")
  ∨ (∃ ss, Forall2 (λ q s, q !! "structure" = Some s) query ss
           ∧ cell21 structure fit_anonymous query wo3
             = Ok (List.filter (λ s, fit_anonymous s wo3) ss)).
Proof.
  unfold cell21.
  destruct (structures_of structure query) as [ss|e] eqn:Hss; simpl.
  - right. exists ss. split; [by apply structures_of_Ok |].
    by rewrite find_matches_filter.
  - left. destruct (structures_of_Raise _ _ Hss) as [-> Hex]. done.
Qed.

End Matching.

Section Diffraction.

Variable structure : Type.
Variable peak : Type.
Variable get_xrd_data : structure → list peak.

Lemma lis_fold l : ∀ i data out,
  fold_left (lis_step structure peak get_xrd_data)
    (combine (seq i (length l)) l) (data, out)
  = (match last l with Some s => get_xrd_data s | None => data end,
     out ++ List.filter (λ s, length (get_xrd_data s) =? 8) l).
Proof.
  induction l as [|s l IH]; intros i data out.
  - simpl. by rewrite app_nil_r.
  - assert (Hlast : match last (s :: l) with
                    | Some s' => get_xrd_data s'
                    | None => data
                    end
                    = match last l with
                      | Some s' => get_xrd_data s'
                      | None => get_xrd_data s
                      end).
    { destruct l as [|s' l']; [done |]. rewrite last_cons_cons.
      destruct (last (s' :: l')) eqn:E; [done | by apply last_None in E]. }
    rewrite Hlast. cbn [length seq combine fold_left List.filter].
    assert (Hstep : lis_step structure peak get_xrd_data (data, out) (i, s)
                    = (get_xrd_data s,
                       if length (get_xrd_data s) =? 8
                       then out ++ [s] else out)).
    { unfold lis_step. cbn [fst snd].
      by destruct (length (get_xrd_data s) =? 8). }
    rewrite Hstep, IH.
    destruct (length (get_xrd_data s) =? 8); [| done].
    by rewrite <- app_assoc.
Qed.

(** X7: cell 26 raises [IndexError] when the query returns no structure;
    otherwise it prints exactly the structures whose pattern has 8 peaks,
    in the order of the input, and leaves in [data] the pattern of the
    last structure. *)
Theorem cell26_outcome lis_structures :
  cell26 structure peak get_xrd_data lis_structures
  = match last lis_structures with
    | None => Raise "IndexError"
    | Some s =>
        Ok (get_xrd_data s,
            List.filter (λ s, length (get_xrd_data s) =? 8) lis_structures)
    end.
Proof.
  destruct lis_structures as [|s0 l]; [reflexivity |].
  unfold cell26, enumerate, range. cbn [index lookup list_lookup rbind].
  rewrite lis_fold. simpl.
  destruct (last (s0 :: l)) eqn:Hl; [done |].
  by apply last_None in Hl.
Qed.

End Diffraction.

Section Surfaces.

Variable slab : Type.
Variable miller : Type.
Variable miller_index : slab → miller.

Lemma print_fold l : ∀ out,
  fold_left (λ out s, out ++ [miller_index s]) l out
  = out ++ map miller_index l.
Proof.
  induction l as [|s l IH]; intros out; simpl.
  - by rewrite app_nil_r.
  - by rewrite IH, <- app_assoc.
Qed.

(** X8: cell 34 raises [IndexError], before it prints anything, when the
    generator returns no slab; otherwise it prints one Miller index per
    slab, in order, the first of them being that of [first_slab]. *)
Theorem cell34_outcome slabs :
  cell34 slab miller miller_index slabs
  = match slabs with
    | [] => Raise "IndexError"
    | s :: rest => Ok (miller_index s, miller_index s :: map miller_index rest)
    end.
Proof.
  destruct slabs as [|s rest]; [reflexivity |].
  unfold cell34. simpl. by rewrite print_fold.
Qed.

End Surfaces.

End CellProps.

(** ** The shell lines of the band-structure notebook *)

Module ShellProps.
Import Py FS RunProps.

Lemma filter_fst_NoDup {A} (P : string * A → bool) (l : list (string * A)) :
  NoDup l.*1 → NoDup (List.filter P l).*1.
Proof.
  induction l as [|[k v] l IH]; simpl; [done |].
  rewrite NoDup_cons. intros [Hk Hl]. destruct (P (k, v)); simpl; [| auto].
  apply NoDup_cons. split; [| auto].
  intros Hin. apply Hk. apply list_elem_of_fmap in Hin as ([k' v'] & -> & Hin).
  apply list_elem_of_fmap. exists (k', v'). split; [done |].
  apply list_elem_of_In. apply list_elem_of_In, filter_In in Hin. tauto.
Qed.

Lemma visible_entries_NoDup d : NoDup (visible_entries d).*1.
Proof. apply filter_fst_NoDup, NoDup_fst_map_to_list. Qed.

Lemma visible_entries_spec d k v :
  (k, v) ∈ visible_entries d ↔ d !! k = Some v ∧ visible k = true.
Proof.
  unfold visible_entries. rewrite list_elem_of_In, filter_In.
  rewrite <- list_elem_of_In, elem_of_map_to_list. done.
Qed.

Lemma visible_entries_key d k :
  k ∈ (visible_entries d).*1 ↔ is_Some (d !! k) ∧ visible k = true.
Proof.
  rewrite list_elem_of_fmap. split.
  - intros ([k' v] & -> & Hin). apply visible_entries_spec in Hin as [? ?].
    simpl. eauto.
  - intros [[v Hv] Hvis]. exists (k, v). split; [done |].
    by apply visible_entries_spec.
Qed.

(** *** [cp] *)

Lemma cp_file_into_eq d k v : cp_file_into d (k, v) !! k = copied v (d !! k).
Proof.
  unfold cp_file_into, copied. simpl. destruct v as [x|e]; [| done].
  destruct (d !! k) as [[y|e]|] eqn:Hk; rewrite ?lookup_insert_eq; done.
Qed.

Lemma cp_file_into_ne d k k' v : k ≠ k' → cp_file_into d (k', v) !! k = d !! k.
Proof.
  intros Hne. unfold cp_file_into. simpl. destruct v as [x|e]; [| done].
  destruct (d !! k') as [[y|e]|]; rewrite ?lookup_insert_ne; done.
Qed.

Lemma cp_fold l : NoDup l.*1 → ∀ d k,
  (k ∉ l.*1 → fold_left cp_file_into l d !! k = d !! k)
  ∧ (∀ v, (k, v) ∈ l → fold_left cp_file_into l d !! k = copied v (d !! k)).
Proof.
  induction l as [|[k0 v0] l IH]; simpl; intros Hnd d k.
  - split; [done | intros v Hv; by apply elem_of_nil in Hv].
  - apply NoDup_cons in Hnd as [Hk0 Hnd].
    destruct (IH Hnd (cp_file_into d (k0, v0)) k) as [IHa IHb]. split.
    + intros Hk. apply not_elem_of_cons in Hk as [Hne Hk].
      rewrite IHa by done. by apply cp_file_into_ne.
    + intros v Hv. apply elem_of_cons in Hv as [[= -> ->] | Hv].
      * rewrite IHa by done. apply cp_file_into_eq.
      * assert (k ≠ k0).
        { intros ->. apply Hk0. apply list_elem_of_fmap. by exists (k0, v). }
        rewrite (IHb v Hv). by rewrite cp_file_into_ne.
Qed.

(** *** [mv] *)

Lemma mv_one_skip name d e v : mv_one name (d, e) (name, v) = (d, e).
Proof. unfold mv_one. simpl. by rewrite String.eqb_refl. Qed.

Lemma mv_one_free name d e k v :
  k ≠ name → e !! k = None →
  mv_one name (d, e) (k, v) = (delete k d, <[k := v]> e).
Proof.
  intros Hne He. unfold mv_one. simpl.
  destruct (String.eqb_spec k name); [done |]. by rewrite He.
Qed.

Lemma mv_fold name l : NoDup l.*1 → ∀ d e,
  (∀ k v, (k, v) ∈ l → k ≠ name → e !! k = None) →
  ∃ d' e', fold_left (mv_one name) l (d, e) = (d', e')
    ∧ (∀ k, k = name ∨ k ∉ l.*1 → d' !! k = d !! k ∧ e' !! k = e !! k)
    ∧ (∀ k v, (k, v) ∈ l → k ≠ name → d' !! k = None ∧ e' !! k = Some v).
Proof.
  induction l as [|[k0 v0] l IH]; intros Hnd d e Hfree.
  - exists d, e. split; [done |]. split; [done |].
    intros k v Hv. by apply elem_of_nil in Hv.
  - apply NoDup_cons in Hnd as [Hk0 Hnd]. cbn [fold_left].
    destruct (decide (k0 = name)) as [-> | Hne].
    + rewrite mv_one_skip.
      destruct (IH Hnd d e) as (d' & e' & Hf & H1 & H2).
      { intros k v Hv Hk. apply (Hfree k v); [by right | done]. }
      exists d', e'. split; [done |]. split.
      * intros k [-> | Hk]; [apply H1; by left |].
        apply H1. right. by apply not_elem_of_cons in Hk as [_ Hk].
      * intros k v Hv Hk. apply elem_of_cons in Hv as [[= -> ->] | Hv];
          [done | by apply H2].
    + rewrite mv_one_free; [| done | apply (Hfree k0 v0); [by left | done]].
      assert (Hother : ∀ k v, (k, v) ∈ l → k ≠ k0).
      { intros k v Hv ->. apply Hk0. apply list_elem_of_fmap.
        by exists (k0, v). }
      destruct (IH Hnd (delete k0 d) (<[k0 := v0]> e))
        as (d' & e' & Hf & H1 & H2).
      { intros k v Hv Hk. rewrite lookup_insert_ne by (symmetry; eauto).
        apply (Hfree k v); [by right | done]. }
      exists d', e'. split; [done |]. split.
      * intros k Hk.
        assert (k ≠ k0 ∧ (k = name ∨ k ∉ l.*1)) as [Hkk Hk'].
        { destruct Hk as [-> | Hk]; [split; [done | by left] |].
          apply not_elem_of_cons in Hk as [? ?]. split; [done | by right]. }
        destruct (H1 k Hk') as [-> ->].
        by rewrite lookup_delete_ne, lookup_insert_ne by done.
      * intros k v Hv Hk. apply elem_of_cons in Hv as [[= -> ->] | Hv].
        -- destruct (H1 k0 (or_intror Hk0)) as [-> ->].
           by rewrite lookup_delete_eq, lookup_insert_eq.
        -- by apply H2.
Qed.

(** X11: [cp SRC/* .], name by name: where the source has a visible
    regular file and the working directory has no directory of that name,
    the file is there afterwards; everywhere else the working directory is
    as it was.  So the copy removes nothing, copies neither directories nor
    hidden files, and never replaces a directory. *)
Theorem cp_glob_lookup src d k :
  sh_cp_glob (Some src) d !! k
  = match src !! k with
    | Some (File x) =>
        if visible k
        then match d !! k with Some (Dir _) => d !! k | _ => Some (File x) end
        else d !! k
    | _ => d !! k
    end.
Proof.
  unfold sh_cp_glob.
  destruct (cp_fold (visible_entries src) (visible_entries_NoDup src) d k)
    as [Ha Hb].
  destruct (src !! k) as [v|] eqn:Hs.
  - destruct (visible k) eqn:Hv.
    + rewrite (Hb v) by (by apply visible_entries_spec). by destruct v.
    + rewrite Ha; [by destruct v |].
      intros H. apply visible_entries_key in H as [_ H]. congruence.
  - rewrite Ha; [done |].
    intros H. apply visible_entries_key in H as [[v H] _]. congruence.
Qed.

(** [mv * NAME] is not modelled when a name that [*] expands to starts
    with [-]. *)
Lemma mv_all_option_name name d k v :
  d !! k = Some v → visible k = true → reads_as_option k = true →
  sh_mv_all name d = None.
Proof.
  intros Hk Hv Ho. unfold sh_mv_all.
  destruct (existsb _ _) eqn:E; [done |].
  assert (existsb (λ p : string * node, reads_as_option p.1)
            (visible_entries d) = true); [| congruence].
  apply existsb_exists. exists (k, v). split; [| done].
  apply list_elem_of_In. by apply visible_entries_spec.
Qed.

Lemma mv_all_plain_names d :
  (∀ k, is_Some (d !! k) → reads_as_option k = false) →
  existsb (λ p : string * node, reads_as_option p.1) (visible_entries d)
  = false.
Proof.
  intros Hplain. destruct (existsb _ _) eqn:E; [| done].
  apply existsb_exists in E as ([k v] & Hin & Ho).
  apply list_elem_of_In, visible_entries_spec in Hin as [Hk _].
  simpl in Ho. rewrite Hplain in Ho; [done | eauto].
Qed.

(** X12: the clean-up of cells 23 and 31, [mkdir NAME] then [mv * NAME],
    when [NAME] is a plain visible name that nothing is called yet and no
    entry of the directory starts with [-] (such a name would be read as
    an option): afterwards [NAME] is a directory that holds every entry
    that was visible, unchanged, and nothing else; of the other names only
    the hidden ones are left where they were. *)
Theorem clean_up_moves_all d name :
  d !! name = None → shell_name name = true → visible name = true →
  (∀ k, is_Some (d !! k) → reads_as_option k = false) →
  ∃ d' e, sh_mv_all name (sh_mkdir name d) = Some d'
          ∧ d' !! name = Some (Dir e)
          ∧ (∀ k, e !! k = if visible k then d !! k else None)
          ∧ (∀ k, k ≠ name → d' !! k = if visible k then None else d !! k).
Proof.
  intros Hname Hsh Hvis Hplain.
  assert (Hopt : reads_as_option name = false).
  { unfold shell_name in Hsh. apply andb_prop in Hsh as [_ Hsh].
    by apply negb_true_iff. }
  unfold sh_mkdir. rewrite Hname.
  set (d1 := <[name := Dir ∅]> d).
  assert (Hd1 : ∀ k, k ≠ name → d1 !! k = d !! k)
    by (intros k Hk; unfold d1; by rewrite lookup_insert_ne).
  unfold sh_mv_all. rewrite mv_all_plain_names.
  2:{ intros k Hk. destruct (decide (k = name)) as [-> | Hne]; [done |].
      apply Hplain. by rewrite <- Hd1. }
  replace (d1 !! name) with (Some (Dir ∅)) by (unfold d1; by rewrite lookup_insert_eq).
  destruct (mv_fold name (visible_entries d1) (visible_entries_NoDup d1) d1 ∅)
    as (d' & e' & -> & H1 & H2); [done |].
  eexists _, e'. split; [done |]. split; [by rewrite lookup_insert_eq |].
  assert (Hcases : ∀ k, k ≠ name →
            (visible k = true ∧ ∃ v, d !! k = Some v
                                      ∧ (k, v) ∈ visible_entries d1)
            ∨ ((visible k = false ∨ d !! k = None)
               ∧ k ∉ (visible_entries d1).*1)).
  { intros k Hk. destruct (visible k) eqn:Hv, (d !! k) as [v|] eqn:Hdk.
    - left. split; [done |]. exists v. split; [done |].
      apply visible_entries_spec. by rewrite Hd1.
    - right. split; [by right |]. rewrite visible_entries_key, Hd1 by done.
      rewrite Hdk. by intros [[? ?] _].
    - right. split; [by left |]. rewrite visible_entries_key.
      intros [_ ?]. congruence.
    - right. split; [by left |]. rewrite visible_entries_key.
      intros [_ ?]. congruence. }
  split.
  - intros k. destruct (decide (k = name)) as [-> | Hk].
    + destruct (H1 name (or_introl eq_refl)) as [_ ->].
      by rewrite Hvis, Hname.
    + destruct (Hcases k Hk) as [(Hv & v & Hdk & Hin) | [Hor Hnot]].
      * destruct (H2 k v Hin Hk) as [_ ->]. by rewrite Hv, Hdk.
      * destruct (H1 k (or_intror Hnot)) as [_ ->]. rewrite lookup_empty.
        destruct Hor as [-> | ->]; [done | by destruct (visible k)].
  - intros k Hk. rewrite lookup_insert_ne by done.
    destruct (Hcases k Hk) as [(Hv & v & Hdk & Hin) | [Hor Hnot]].
    + destruct (H2 k v Hin Hk) as [-> _]. by rewrite Hv.
    + destruct (H1 k (or_intror Hnot)) as [-> _]. rewrite Hd1 by done.
      destruct Hor as [-> | ->]; [done | by destruct (visible k)].
Qed.

(** From a directory [w] of [p], the path [../outputs/SUB] leads to the
    directory [p/outputs/SUB], if there is one. *)
Lemma walk_sibling r p a b :
  (match get_dir (p ++ [a]) r with
   | Some _ => Some (p ++ [a])
   | None => None
   end ≫= λ q, match get_dir (q ++ [b]) r with
               | Some _ => Some (q ++ [b])
               | None => None
               end) ≫= (λ q, get_dir q r)
  = get_dir (p ++ [a; b]) r.
Proof.
  replace (p ++ [a; b]) with ((p ++ [a]) ++ [b]) by (by rewrite <- app_assoc).
  destruct (get_dir (p ++ [a]) r) as [e|] eqn:Ha; simpl.
  - by destruct (get_dir ((p ++ [a]) ++ [b]) r) eqn:Hb.
  - by rewrite (get_dir_app (p ++ [a])), Ha.
Qed.

Lemma source_outputs p w st :
  cwd st = p ++ [w] →
  Forall (λ sub, source_dir st ("../outputs/" +:+ sub)
                 = get_dir (p ++ ["outputs"; sub]) (root st))
         ["Si_Opt"; "Si_Static"; "Si_NonSCF"].
Proof.
  intros Hcwd.
  repeat apply List.Forall_cons; try apply List.Forall_nil;
    rewrite <- walk_sibling; unfold source_dir, walk; rewrite Hcwd;
    [ change (Str.split_on "/"%char ("../outputs/" +:+ "Si_Opt"))
        with [".."; "outputs"; "Si_Opt"]
    | change (Str.split_on "/"%char ("../outputs/" +:+ "Si_Static"))
        with [".."; "outputs"; "Si_Static"]
    | change (Str.split_on "/"%char ("../outputs/" +:+ "Si_NonSCF"))
        with [".."; "outputs"; "Si_NonSCF"] ];
    cbn [fold_left]; unfold walk_component; simpl;
    by rewrite removelast_last.
Qed.

(** X13: each of the three copy lines, run in a directory [w] of a
    directory [p] (anywhere in the tree), reads the directory
    [p/outputs/...] next to [w], writes only in [w], and leaves [w] with
    what [cp] makes of it; it ends normally even when the source is
    missing, in which case nothing is copied. *)
Theorem cp_lines_read_sibling lib k s p w st d :
  cwd st = p ++ [w] → get_dir (cwd st) (root st) = Some d →
  Forall (λ sl : string * string,
            ∃ st', perform lib k s (shell_action sl.2) st = Went st' None
                   ∧ cwd st' = cwd st
                   ∧ only_dir_differs st st'
                   ∧ get_dir (cwd st') (root st')
                     = Some (sh_cp_glob
                               (get_dir (p ++ ["outputs"; sl.1]) (root st)) d))
         [ ("Si_Opt", "cp ../outputs/Si_Opt/* .");
           ("Si_Static", "cp ../outputs/Si_Static/* .");
           ("Si_NonSCF", "cp ../outputs/Si_NonSCF/* .") ].
Proof.
  intros Hcwd Hd.
  pose proof (source_outputs p w st Hcwd) as Hres.
  apply List.Forall_cons_iff in Hres as [H1 Hres].
  apply List.Forall_cons_iff in Hres as [H2 Hres].
  apply List.Forall_cons_iff in Hres as [H3 _].
  assert (Hone : ∀ sub line,
            shell_action line
            = Shell (λ st d, Some (sh_cp_glob
                                     (source_dir st ("../outputs/" +:+ sub)) d)) →
            source_dir st ("../outputs/" +:+ sub)
            = get_dir (p ++ ["outputs"; sub]) (root st) →
            ∃ st', perform lib k s (shell_action line) st = Went st' None
                   ∧ cwd st' = cwd st
                   ∧ only_dir_differs st st'
                   ∧ get_dir (cwd st') (root st')
                     = Some (sh_cp_glob
                               (get_dir (p ++ ["outputs"; sub]) (root st)) d)).
  { intros sub line -> Hr. unfold perform. rewrite Hd, Hr.
    destruct (at_path_defined (cwd st)
                (λ _, sh_cp_glob (get_dir (p ++ ["outputs"; sub]) (root st)) d)
                _ _ Hd) as [r Hrr].
    rewrite Hrr. eexists. split; [done |]. split; [done |].
    split; [by eexists |]. simpl.
    by rewrite (at_path_get_dir _ _ _ _ _ Hrr Hd). }
  repeat apply List.Forall_cons; try apply List.Forall_nil;
    cbn [fst snd]; apply Hone; done.
Qed.

(** *** The statements above on the small tree *)


Lemma demo_work_plain k : is_Some (demo_work !! k) → reads_as_option k = false.
Proof.
  intros [v Hk]. apply elem_of_map_to_list, list_elem_of_In in Hk.
  vm_compute in Hk.
  repeat (destruct Hk as [[= <- <-] | Hk]; [reflexivity |]). done.
Qed.

Lemma clean_up_moves_all_witness :
  demo_work !! "opt" = None ∧ shell_name "opt" = true
  ∧ visible "opt" = true
  ∧ (∀ k, is_Some (demo_work !! k) → reads_as_option k = false)
  ∧ ∃ d' e, sh_mv_all "opt" (sh_mkdir "opt" demo_work) = Some d'
         ∧ d' !! "opt" = Some (Dir e)
         ∧ e !! "INCAR" = Some (File "incar")
         ∧ e !! ".lock" = None
         ∧ d' !! "INCAR" = None
         ∧ d' !! ".lock" = Some (File "pid").
Proof.
  assert (H1 : demo_work !! "opt" = None) by (vm_compute; reflexivity).
  assert (H2 : shell_name "opt" = true) by reflexivity.
  assert (H3 : visible "opt" = true) by reflexivity.
  split; [exact H1 |]. split; [exact H2 |]. split; [exact H3 |].
  split; [exact demo_work_plain |].
  destruct (clean_up_moves_all demo_work "opt" H1 H2 H3 demo_work_plain)
    as (d' & e & Hmv & He & Hin & Hout).
  exists d', e. split; [exact Hmv |]. split; [exact He |].
  split; [rewrite (Hin "INCAR"); vm_compute; reflexivity |].
  split; [rewrite (Hin ".lock"); vm_compute; reflexivity |].
  split; [rewrite (Hout "INCAR") by discriminate; vm_compute; reflexivity |].
  rewrite (Hout ".lock") by discriminate. vm_compute. reflexivity.
Defined.

(** In the work directory of the small tree, still empty, the first copy
    line brings in the [vasprun.xml] of [outputs/Si_Opt] and leaves the
    subdirectory of the source out. *)
Lemma cp_lines_read_sibling_witness :
  cwd demo_state_inside = ["work"] ++ [work_dir]
  ∧ get_dir (cwd demo_state_inside) (root demo_state_inside) = Some ∅
  ∧ ∃ st', perform demo_lib 0 (SShell "cp ../outputs/Si_Opt/* .")
             (shell_action "cp ../outputs/Si_Opt/* .") demo_state_inside
           = Went st' None
           ∧ cwd st' = cwd demo_state_inside
           ∧ entry_at (cwd st') "vasprun.xml" (root st') = Some (File "opt")
           ∧ entry_at (cwd st') "sub" (root st') = None.
Proof.
  assert (H1 : cwd demo_state_inside = ["work"] ++ [work_dir]) by reflexivity.
  assert (H2 : get_dir (cwd demo_state_inside) (root demo_state_inside) = Some ∅)
    by (vm_compute; reflexivity).
  split; [exact H1 |]. split; [exact H2 |].
  pose proof (cp_lines_read_sibling demo_lib 0
                (SShell "cp ../outputs/Si_Opt/* .") ["work"] work_dir
                demo_state_inside ∅ H1 H2) as H.
  apply List.Forall_cons_iff in H as [(st' & Hp & Hc & _ & Hg) _].
  exists st'. split; [exact Hp |]. split; [exact Hc |].
  unfold entry_at. rewrite Hg. split; vm_compute; reflexivity.
Defined.

End ShellProps.

(** ** The loops on concrete data *)

Module CellExamples.
Import Cells.

Lemma cell10_outcome_witness :
  (∀ s sp, demo_species (demo_with_species s sp) = sp)
  ∧ cell10 demo_site demo_species demo_with_species demo_oxide
    = Ok ([("Nb", "0 0 0"); ("Ni", "0.5 0.5 0.5"); ("O", "0.5 0 0");
           ("O", "0 0.5 0"); ("O", "0 0 0.5")],
          [[false; false; false]; [true; true; true]; [true; true; true];
           [true; true; true]; [true; true; true]],
          []).
Proof.
  split; [done |].
  exact (CellProps.cell10_outcome demo_site demo_species demo_with_species
           (λ _ _, eq_refl) demo_oxide).
Defined.

Lemma replace_oxygen_complete_witness :
  (∀ s sp, demo_species (demo_with_species s sp) = sp)
  ∧ ∃ s', replace_oxygen demo_site demo_species demo_with_species demo_oxide
          = Ok s'
          ∧ Forall (λ x, demo_species x ≠ "O") s'
          ∧ replace_oxygen demo_site demo_species demo_with_species s' = Ok s'.
Proof.
  split; [done |].
  exact (CellProps.replace_oxygen_complete demo_site demo_species
           demo_with_species (λ _ _, eq_refl) demo_oxide).
Defined.

(** The cells run: oxygen replaced in the first structure found. *)
Example exercise1_demo :
  exercise1 demo_site demo_species demo_with_species [demo_oxide]
  = Ok [("Ba", "0 0 0"); ("Ni", "0.5 0.5 0.5"); ("F", "0.5 0 0");
        ("F", "0 0.5 0"); ("F", "0 0 0.5")].
Proof. reflexivity. Qed.

(** Structures are numbers here, and one fits when it is at least the
    reference. *)
Example cell21_demo :
  cell21 nat (λ s r, r <=? s) demo_query 5 = Ok [8; 5].
Proof. vm_compute. reflexivity. Qed.

Example cell21_missing_key :
  cell21 nat (λ s r, r <=? s) (demo_query ++ [∅]) 5 = Raise "KeyError".
Proof. vm_compute. reflexivity. Qed.

(** A structure is its list of peaks. *)
Example cell26_demo :
  cell26 (list nat) nat (λ s, s)
    [[1; 2]; [1; 2; 3; 4; 5; 6; 7; 8]; [3]]
  = Ok ([3], [[1; 2; 3; 4; 5; 6; 7; 8]]).
Proof. reflexivity. Qed.

End CellExamples.
